(** * Swiss ISR / QRR references of [addons/l10n_ch/models/account_invoice.py]

    A shallow embedding of the [account.move] extension of the Swiss
    localisation: the subscription formatters, the ISR reference builder,
    the two block-of-5 display routines, the optical line, the reference
    validator and the print action.

    Texts are lists of 8-bit characters; the character class [\d] of the
    regular expressions is taken on that alphabet, where it is [0-9].

    A record holds its stored and its computed fields alike; a compute
    method is the body of its [for record in self] loop, a function from
    the record to the record with the field assigned, and a method that
    reads a computed field reads what the record holds.  A method that
    can raise returns a [result]. *)

From Stdlib Require Import Ascii String ZArith Lia Bool Arith List.
From Equations Require Import Equations.
Import ListNotations.
Open Scope string_scope.
Open Scope list_scope.
Open Scope nat_scope.

Set Implicit Arguments.

(** ** Python strings *)

Definition str := list ascii.

(** String literals are written with the usual double quotes. *)
Coercion list_ascii_of_string : string >-> list.

Definition char_eqb (a b : ascii) : bool := Ascii.eqb a b.

Definition str_eqb (a b : str) : bool :=
  if list_eq_dec ascii_dec a b then true else false.

(** [c.isdigit()] / the class [\d] on 8-bit characters. *)
Definition is_digit (c : ascii) : bool :=
  (48 <=? nat_of_ascii c) && (nat_of_ascii c <=? 57).

(** [int(c)] for a digit [c]. *)
Definition digit_value (c : ascii) : nat := nat_of_ascii c - 48.

(** [str(d)] for [0 <= d < 10]. *)
Definition digit_char (d : nat) : ascii := ascii_of_nat (48 + d).

Definition all_digits (s : str) : bool := forallb is_digit s.

(** [s.replace(c, '')] for a one-character [c]. *)
Definition remove_char (c : ascii) (s : str) : str :=
  filter (fun x => negb (char_eqb x c)) s.

(** ['0' * n] *)
Definition zeros (n : nat) : str := repeat "0"%char n.

(** [s.rjust(width, '0')] *)
Definition rjust0 (width : nat) (s : str) : str :=
  if width <=? length s then s else zeros (width - length s) ++ s.

(** [s.zfill(width)]: pads with zeros on the left, after a leading sign
    if there is one; a width that is not larger than [len(s)] (a negative
    one too) leaves [s] as it is. *)
Definition zfill (width : Z) (s : str) : str :=
  let fill := (width - Z.of_nat (length s))%Z in
  if (fill <=? 0)%Z then s
  else match s with
       | c :: rest =>
           if char_eqb c "+" || char_eqb c "-"
           then c :: zeros (Z.to_nat fill) ++ rest
           else zeros (Z.to_nat fill) ++ s
       | [] => zeros (Z.to_nat fill)
       end.

(** [re.sub('^0*', '', s)] *)
Fixpoint strip_leading_zeros (s : str) : str :=
  match s with
  | c :: rest => if char_eqb c "0" then strip_leading_zeros rest else s
  | [] => []
  end.

(** [re.sub('[^\d]', '', s)] *)
Definition keep_digits (s : str) : str := filter is_digit s.

(** [s[-n:]] for [n > 0] *)
Definition last_chars (n : nat) (s : str) : str := skipn (length s - n) s.

(** [s[:-n]] for [n > 0] *)
Definition drop_last_chars (n : nat) (s : str) : str := firstn (length s - n) s.

(** [s[lo:hi]] for [0 <= lo] and [0 <= hi] *)
Definition slice (lo hi : nat) (s : str) : str := skipn lo (firstn hi s).

(** ** Odoo values *)

(** A [Char] field holds [False] ([None] here) or a text. *)
Definition char_field := option str.

(** Python truth value of a [Char] field. *)
Definition truthy (v : char_field) : bool :=
  match v with
  | Some (_ :: _) => true
  | _ => false
  end.

(** [a or b] on [Char] fields. *)
Definition py_or (a b : char_field) : char_field :=
  if truthy a then a else b.

(** The text of a truthy value. *)
Definition text_of (v : char_field) : str :=
  match v with Some s => s | None => [] end.

(** Exceptions the module raises or lets through. *)
Inductive exn : Type :=
| IndexError
| TypeError
| InvalidInput
| NotImplementedError
| ValidationError (errors : list str).

Inductive result (A : Type) : Type :=
| Ok (a : A)
| Raise (e : exn).
Arguments Ok {A} a.
Arguments Raise {A} e.

Definition bind {A B} (m : result A) (k : A -> result B) : result B :=
  match m with
  | Ok a => k a
  | Raise e => Raise e
  end.

Notation "x <- m ;; k" := (bind m (fun x => k))
  (at level 61, m at next level, right associativity).

(** ** [odoo.tools.misc.mod10r] *)

(** The transition table of the recursive modulo 10 checksum. *)
Definition TABLE : list (list nat) :=
  [ [0; 9; 4; 6; 8; 2; 7; 1; 3; 5];
    [9; 4; 6; 8; 2; 7; 1; 3; 5; 0];
    [4; 6; 8; 2; 7; 1; 3; 5; 0; 9];
    [6; 8; 2; 7; 1; 3; 5; 0; 9; 4];
    [8; 2; 7; 1; 3; 5; 0; 9; 4; 6];
    [2; 7; 1; 3; 5; 0; 9; 4; 6; 8];
    [7; 1; 3; 5; 0; 9; 4; 6; 8; 2];
    [1; 3; 5; 0; 9; 4; 6; 8; 2; 7];
    [3; 5; 0; 9; 4; 6; 8; 2; 7; 1];
    [5; 0; 9; 4; 6; 8; 2; 7; 1; 3] ].

Definition table_lookup (carry digit : nat) : nat :=
  nth digit (nth carry TABLE []) 0.

(** The carry after reading [digits] from the left, or [InvalidInput] at
    the first character that is not a digit. *)
Fixpoint mod10r_carry (carry : nat) (digits : str) : result nat :=
  match digits with
  | [] => Ok carry
  | c :: rest =>
      if is_digit c
      then mod10r_carry (table_lookup carry (digit_value c)) rest
      else Raise InvalidInput
  end.

(** Modelled from the spec: [mod10r] of [odoo/tools/misc.py], which this
    module imports and which is not among the sources.  The checksum of
    the spec's section 4.1: a carry that starts at 0 and goes through the
    table at every digit from the left, the check digit
    [(10 - carry) mod 10] appended to the input, and an [InvalidInput]
    failure on an input that holds a character that is not a digit. *)
Definition mod10r (number : str) : result str :=
  carry <- mod10r_carry 0 number ;;
  Ok (number ++ [digit_char ((10 - carry) mod 10)]).

(** ** The formatters of [_compute_l10n_ch_isr_subscription] *)

(** [isr_subscription[-1]]: the last character, an [IndexError] on the
    empty text. *)
Definition last_char (s : str) : result str :=
  match s with
  | [] => Raise IndexError
  | _ :: _ => Ok (last_chars 1 s)
  end.

Definition _format_isr_subscription (isr_subscription : str) : result str :=
  let currency_code := firstn 2 isr_subscription in
  let middle_part := slice 2 (length isr_subscription - 1) isr_subscription in
  trailing_cipher <- last_char isr_subscription ;;
  let middle_part := strip_leading_zeros middle_part in
  Ok (currency_code ++ "-" ++ middle_part ++ "-" ++ trailing_cipher).

Definition _format_isr_subscription_scanline (isr_subscription : str) : str :=
  firstn 2 isr_subscription
  ++ rjust0 6 (slice 2 (length isr_subscription - 1) isr_subscription)
  ++ last_chars 1 isr_subscription.

(** ** The two block-of-5 display routines *)

(** The [while to_treat] loop of [_space_isr_number], on its two
    variables. *)
Equations? space_isr_loop (to_treat res : str) : str
  by wf (length to_treat) lt :=
  space_isr_loop [] res := res;
  space_isr_loop (c :: t) res :=
    let res1 := last_chars 5 (c :: t) ++ res in
    let to_treat1 := drop_last_chars 5 (c :: t) in
    space_isr_loop to_treat1
      (match to_treat1 with [] => res1 | _ :: _ => " " ++ res1 end).
Proof.
  subst to_treat1. unfold drop_last_chars.
  rewrite length_firstn. simpl. lia.
Qed.

Definition _space_isr_number (isr_number : str) : str :=
  space_isr_loop isr_number [].

(** The [while i > 0] loop of [space_qrr_reference], on [i] and
    [spaced_qrr_ref]. *)
Equations? space_qrr_loop (qrr_ref : str) (i : Z) (spaced_qrr_ref : str) : str
  by wf (Z.to_nat i) lt :=
  space_qrr_loop qrr_ref i spaced_qrr_ref with Z_lt_dec 0 i := {
    | left _ :=
        space_qrr_loop qrr_ref (i - 5)
          (slice (Z.to_nat (Z.max (i - 5) 0)) (Z.to_nat i) qrr_ref
             ++ " " ++ spaced_qrr_ref);
    | right _ := spaced_qrr_ref }.
Proof. lia. Qed.

Definition space_qrr_reference (qrr_ref : str) : str :=
  space_qrr_loop qrr_ref (Z.of_nat (length qrr_ref)) [].

(** ** The pattern of [_has_isr_ref] *)

Definition newline : ascii := ascii_of_nat 10.

(** Number of digits [s] starts with. *)
Fixpoint digits_prefix (s : str) : nat :=
  match s with
  | c :: rest => if is_digit c then S (digits_prefix rest) else 0
  | [] => 0
  end.

(** [re.match(r'^(\d{2,27})$', s)]: 2 to 27 digits up to the end of the
    text, where [$] stands for the end or for a line feed that ends the
    text. *)
Definition match_isr_ref (s : str) : bool :=
  let n := digits_prefix s in
  (2 <=? n) && (n <=? 27)
  && match skipn n s with
     | [] => true
     | [c] => char_eqb c newline
     | _ => false
     end.

(** ** Records *)

(** [Char] field against a literal: [field == 'EUR']. *)
Definition field_eqb (v : char_field) (s : str) : bool :=
  match v with
  | Some t => str_eqb t s
  | None => false
  end.

(** The fields and the method of [res.partner.bank] the module reads;
    [_is_qr_iban] holds what the method of that name returns. *)
Record res_partner_bank : Type := {
  l10n_ch_postal : char_field;
  l10n_ch_isr_subscription_eur : char_field;
  l10n_ch_isr_subscription_chf : char_field;
  _is_qr_iban : bool
}.

(** What a method leaves behind: the value it returns or the exception
    it raises. *)
Inductive outcome : Type :=
| Report (xmlid : str)
| Raised (e : exn).

Section AccountMove.

(** [amount_residual] is a float, and [float_split_str] of
    [odoo.tools.float_utils] gives its units and its cents as texts. *)
Context {float : Type}.
Variable float_split_str : float -> nat -> str * str.

(** One record of [account.move].  [currency_name] is
    [currency_id.name], which the related field [l10n_ch_currency_name]
    reads too; [invoice_partner_bank_id] is [None] for the empty
    recordset. *)
Record account_move : Type := {
  name : char_field;
  type : char_field;
  currency_name : char_field;
  amount_residual : float;
  invoice_partner_bank_id : option res_partner_bank;
  invoice_payment_ref : char_field;
  ref : char_field;
  l10n_ch_isr_subscription : char_field;
  l10n_ch_isr_subscription_formatted : char_field;
  l10n_ch_isr_number : char_field;
  l10n_ch_isr_number_spaced : char_field;
  l10n_ch_isr_optical_line : char_field;
  l10n_ch_isr_valid : bool;
  l10n_ch_isr_sent : bool
}.

(** Assignments [record.field = v]. *)
Definition set_l10n_ch_isr_subscription (v : char_field) (r : account_move) :=
  {| name := name r; type := type r; currency_name := currency_name r;
     amount_residual := amount_residual r;
     invoice_partner_bank_id := invoice_partner_bank_id r;
     invoice_payment_ref := invoice_payment_ref r; ref := ref r;
     l10n_ch_isr_subscription := v;
     l10n_ch_isr_subscription_formatted := l10n_ch_isr_subscription_formatted r;
     l10n_ch_isr_number := l10n_ch_isr_number r;
     l10n_ch_isr_number_spaced := l10n_ch_isr_number_spaced r;
     l10n_ch_isr_optical_line := l10n_ch_isr_optical_line r;
     l10n_ch_isr_valid := l10n_ch_isr_valid r;
     l10n_ch_isr_sent := l10n_ch_isr_sent r |}.

Definition set_l10n_ch_isr_subscription_formatted (v : char_field) (r : account_move) :=
  {| name := name r; type := type r; currency_name := currency_name r;
     amount_residual := amount_residual r;
     invoice_partner_bank_id := invoice_partner_bank_id r;
     invoice_payment_ref := invoice_payment_ref r; ref := ref r;
     l10n_ch_isr_subscription := l10n_ch_isr_subscription r;
     l10n_ch_isr_subscription_formatted := v;
     l10n_ch_isr_number := l10n_ch_isr_number r;
     l10n_ch_isr_number_spaced := l10n_ch_isr_number_spaced r;
     l10n_ch_isr_optical_line := l10n_ch_isr_optical_line r;
     l10n_ch_isr_valid := l10n_ch_isr_valid r;
     l10n_ch_isr_sent := l10n_ch_isr_sent r |}.

Definition set_l10n_ch_isr_number (v : char_field) (r : account_move) :=
  {| name := name r; type := type r; currency_name := currency_name r;
     amount_residual := amount_residual r;
     invoice_partner_bank_id := invoice_partner_bank_id r;
     invoice_payment_ref := invoice_payment_ref r; ref := ref r;
     l10n_ch_isr_subscription := l10n_ch_isr_subscription r;
     l10n_ch_isr_subscription_formatted := l10n_ch_isr_subscription_formatted r;
     l10n_ch_isr_number := v;
     l10n_ch_isr_number_spaced := l10n_ch_isr_number_spaced r;
     l10n_ch_isr_optical_line := l10n_ch_isr_optical_line r;
     l10n_ch_isr_valid := l10n_ch_isr_valid r;
     l10n_ch_isr_sent := l10n_ch_isr_sent r |}.

Definition set_l10n_ch_isr_number_spaced (v : char_field) (r : account_move) :=
  {| name := name r; type := type r; currency_name := currency_name r;
     amount_residual := amount_residual r;
     invoice_partner_bank_id := invoice_partner_bank_id r;
     invoice_payment_ref := invoice_payment_ref r; ref := ref r;
     l10n_ch_isr_subscription := l10n_ch_isr_subscription r;
     l10n_ch_isr_subscription_formatted := l10n_ch_isr_subscription_formatted r;
     l10n_ch_isr_number := l10n_ch_isr_number r;
     l10n_ch_isr_number_spaced := v;
     l10n_ch_isr_optical_line := l10n_ch_isr_optical_line r;
     l10n_ch_isr_valid := l10n_ch_isr_valid r;
     l10n_ch_isr_sent := l10n_ch_isr_sent r |}.

Definition set_l10n_ch_isr_optical_line (v : char_field) (r : account_move) :=
  {| name := name r; type := type r; currency_name := currency_name r;
     amount_residual := amount_residual r;
     invoice_partner_bank_id := invoice_partner_bank_id r;
     invoice_payment_ref := invoice_payment_ref r; ref := ref r;
     l10n_ch_isr_subscription := l10n_ch_isr_subscription r;
     l10n_ch_isr_subscription_formatted := l10n_ch_isr_subscription_formatted r;
     l10n_ch_isr_number := l10n_ch_isr_number r;
     l10n_ch_isr_number_spaced := l10n_ch_isr_number_spaced r;
     l10n_ch_isr_optical_line := v;
     l10n_ch_isr_valid := l10n_ch_isr_valid r;
     l10n_ch_isr_sent := l10n_ch_isr_sent r |}.

Definition set_l10n_ch_isr_valid (v : bool) (r : account_move) :=
  {| name := name r; type := type r; currency_name := currency_name r;
     amount_residual := amount_residual r;
     invoice_partner_bank_id := invoice_partner_bank_id r;
     invoice_payment_ref := invoice_payment_ref r; ref := ref r;
     l10n_ch_isr_subscription := l10n_ch_isr_subscription r;
     l10n_ch_isr_subscription_formatted := l10n_ch_isr_subscription_formatted r;
     l10n_ch_isr_number := l10n_ch_isr_number r;
     l10n_ch_isr_number_spaced := l10n_ch_isr_number_spaced r;
     l10n_ch_isr_optical_line := l10n_ch_isr_optical_line r;
     l10n_ch_isr_valid := v;
     l10n_ch_isr_sent := l10n_ch_isr_sent r |}.

Definition set_l10n_ch_isr_sent (v : bool) (r : account_move) :=
  {| name := name r; type := type r; currency_name := currency_name r;
     amount_residual := amount_residual r;
     invoice_partner_bank_id := invoice_partner_bank_id r;
     invoice_payment_ref := invoice_payment_ref r; ref := ref r;
     l10n_ch_isr_subscription := l10n_ch_isr_subscription r;
     l10n_ch_isr_subscription_formatted := l10n_ch_isr_subscription_formatted r;
     l10n_ch_isr_number := l10n_ch_isr_number r;
     l10n_ch_isr_number_spaced := l10n_ch_isr_number_spaced r;
     l10n_ch_isr_optical_line := l10n_ch_isr_optical_line r;
     l10n_ch_isr_valid := l10n_ch_isr_valid r;
     l10n_ch_isr_sent := v |}.

(** ** The compute methods, on one record of [self] *)

Definition _compute_l10n_ch_isr_subscription (record : account_move)
  : result account_move :=
  let record := set_l10n_ch_isr_subscription None record in
  let record := set_l10n_ch_isr_subscription_formatted None record in
  match invoice_partner_bank_id record with
  | None => Ok record
  | Some bank =>
      let format_both (isr_subscription : char_field) :=
        if truthy isr_subscription then
          let isr_subscription := remove_char "-" (text_of isr_subscription) in
          let record :=
            set_l10n_ch_isr_subscription
              (Some (_format_isr_subscription_scanline isr_subscription)) record in
          formatted <- _format_isr_subscription isr_subscription ;;
          Ok (set_l10n_ch_isr_subscription_formatted (Some formatted) record)
        else Ok record in
      if field_eqb (currency_name record) "EUR"
      then format_both (l10n_ch_isr_subscription_eur bank)
      else if field_eqb (currency_name record) "CHF"
      then format_both (l10n_ch_isr_subscription_chf bank)
      else Ok record
  end.

(** [partner_bank.l10n_ch_postal or ''] *)
Definition _get_isrb_id_number (self : account_move) : str :=
  match invoice_partner_bank_id self with
  | Some partner_bank => text_of (py_or (l10n_ch_postal partner_bank) (Some []))
  | None => []
  end.

Definition l10n_ch_ISR_ID_NUM_LENGTH : Z := 6.

(** The customer number as the reference holds it: padded when there
    is one. *)
Definition isr_id_part (id_number : str) : str :=
  match id_number with
  | [] => id_number
  | _ :: _ => zfill l10n_ch_ISR_ID_NUM_LENGTH id_number
  end.

(** The 26 characters that go through [mod10r]: the text
    [id_number + internal_ref] of [_compute_l10n_ch_isr_number], from
    the customer number and the name of the invoice. *)
Definition isr_number_body (id_number name : str) : str :=
  let id_number := isr_id_part id_number in
  let invoice_ref := keep_digits name in
  let full_len := (Z.of_nat (length id_number) + Z.of_nat (length invoice_ref))%Z in
  let extra := (full_len - 26)%Z in
  let invoice_ref :=
    if (0 <? extra)%Z then skipn (Z.to_nat extra) invoice_ref else invoice_ref in
  let internal_ref := zfill (26 - Z.of_nat (length id_number)) invoice_ref in
  id_number ++ internal_ref.

(** [record.invoice_partner_bank_id and
    record.invoice_partner_bank_id._is_qr_iban() or False] *)
Definition has_qriban (record : account_move) : bool :=
  match invoice_partner_bank_id record with
  | Some bank => _is_qr_iban bank
  | None => false
  end.

Definition _compute_l10n_ch_isr_number (record : account_move)
  : result account_move :=
  let isr_subscription := l10n_ch_isr_subscription record in
  if (has_qriban record || truthy isr_subscription) && truthy (name record) then
    let id_number := _get_isrb_id_number record in
    number <- mod10r (isr_number_body id_number (text_of (name record))) ;;
    Ok (set_l10n_ch_isr_number (Some number) record)
  else Ok (set_l10n_ch_isr_number None record).

Definition _compute_l10n_ch_isr_number_spaced (record : account_move)
  : account_move :=
  match invoice_partner_bank_id record with
  | Some bank =>
      if truthy (name record) && truthy (l10n_ch_postal bank)
      then set_l10n_ch_isr_number_spaced
             (Some (_space_isr_number (text_of (l10n_ch_isr_number record)))) record
      else set_l10n_ch_isr_number_spaced None record
  | None => set_l10n_ch_isr_number_spaced None record
  end.

(** [currency_code] stays [None] for a currency that is neither CHF
    nor EUR, and [None + amount_ref] is a [TypeError]. *)
Definition _get_l10n_ch_isr_optical_amount (self : account_move) : result str :=
  let currency_code : option str :=
    if field_eqb (currency_name self) "CHF" then Some ("01" : str)
    else if field_eqb (currency_name self) "EUR" then Some ("03" : str)
    else None in
  let (units, cents) := float_split_str (amount_residual self) 2 in
  let amount_to_display := units ++ cents in
  let amount_ref := zfill 10 amount_to_display in
  match currency_code with
  | None => Raise TypeError
  | Some currency_code => mod10r (currency_code ++ amount_ref)
  end.

Definition _compute_l10n_ch_isr_optical_line (record : account_move)
  : result account_move :=
  let record := set_l10n_ch_isr_optical_line (Some []) record in
  if truthy (l10n_ch_isr_number record)
     && truthy (l10n_ch_isr_subscription record)
     && truthy (currency_name record)
  then
    amount <- _get_l10n_ch_isr_optical_amount record ;;
    Ok (set_l10n_ch_isr_optical_line
          (Some (amount ++ ">" ++ text_of (l10n_ch_isr_number record)
                   ++ "+ " ++ text_of (l10n_ch_isr_subscription record) ++ ">"))
          record)
  else Ok record.

(** [field in ['EUR', 'CHF']] *)
Definition currency_in_eur_chf (v : char_field) : bool :=
  field_eqb v "EUR" || field_eqb v "CHF".

Definition _compute_l10n_ch_isr_valid (record : account_move) : account_move :=
  set_l10n_ch_isr_valid
    (field_eqb (type record) "out_invoice"
     && truthy (name record)
     && truthy (l10n_ch_isr_subscription record)
     && currency_in_eur_chf (currency_name record))
    record.

(** ** The validator and the print action *)

Definition _has_isr_ref (self : account_move) : result bool :=
  let ref_ := py_or (invoice_payment_ref self) (ref self) in
  if negb (truthy ref_) then Ok false
  else
    let ref_ := remove_char " " (text_of ref_) in
    if match_isr_ref ref_
    then checked <- mod10r (drop_last_chars 1 ref_) ;; Ok (str_eqb ref_ checked)
    else Ok false.

(** The record after the call and what the call gave.  The text of the
    [ValidationError] is built from the list [errors], which the
    exception holds here. *)
Definition isr_print (self : account_move) : account_move * outcome :=
  if l10n_ch_isr_valid self then
    let self := set_l10n_ch_isr_sent true self in
    (self, Report "l10n_ch.l10n_ch_isr_report")
  else
    let errors : list str := [] in
    let errors :=
      match invoice_partner_bank_id self with
      | None =>
          errors ++ [("- Invoice's 'Bank Account' is empty. You need to create or select a valid ISR account" : str)]
      | Some _ =>
          if negb (truthy (l10n_ch_isr_subscription self))
          then errors ++ [("- No ISR Subscription number is set on you company bank account. Please fill it in." : str)]
          else errors
      end in
    let errors :=
      if negb (field_eqb (type self) "out_invoice")
      then errors ++ [("- You can only print Customer ISR." : str)]
      else errors in
    let errors :=
      if negb (currency_in_eur_chf (currency_name self))
      then errors ++ [("- Currency must be CHF or EUR." : str)]
      else errors in
    let errors :=
      if negb (truthy (name self))
      then errors ++ [("- The invoice is missing a name." : str)]
      else errors in
    match errors with
    | [] => (self, Raised NotImplementedError)
    | _ :: _ => (self, Raised (ValidationError errors))
    end.

End AccountMove.

Arguments account_move float : clear implicits.

(** ** The vendor bills to fix *)

Section NeedsFixing.

Context {float : Type}.

(** [inv.company_id.country_id.code], a field of the company of the
    record, and the method [_is_isr_issuer] of [res.partner.bank], called
    on [invoice_partner_bank_id] (the empty recordset too): neither is
    among the sources. *)
Variable company_country_code : account_move float -> char_field.
Variable _is_isr_issuer : option res_partner_bank -> bool.

(** The subscription [_compute_l10n_ch_isr_subscription] picks for the
    currency of the record, [False] where it picks none. *)
Definition isr_subscription_of (record : account_move float) : char_field :=
  match invoice_partner_bank_id record with
  | None => None
  | Some bank =>
      if field_eqb (currency_name record) "EUR"
      then l10n_ch_isr_subscription_eur bank
      else if field_eqb (currency_name record) "CHF"
      then l10n_ch_isr_subscription_chf bank
      else None
  end.

(** The value [_compute_l10n_ch_isr_needs_fixing] assigns to
    [l10n_ch_isr_needs_fixing] on one record. *)
Definition _compute_l10n_ch_isr_needs_fixing (inv : account_move float)
  : result bool :=
  if field_eqb (type inv) "in_invoice"
     && field_eqb (company_country_code inv) "CH"
  then
    let partner_bank := invoice_partner_bank_id inv in
    if _is_isr_issuer partner_bank
    then has_ref <- _has_isr_ref inv ;;
         if negb has_ref then Ok true else Ok false
    else Ok false
  else Ok false.

End NeedsFixing.

(** ** Invoices the statements are tried on *)

Definition bank_with (postal subscription_chf : char_field) : res_partner_bank :=
  {| l10n_ch_postal := postal;
     l10n_ch_isr_subscription_eur := None;
     l10n_ch_isr_subscription_chf := subscription_chf;
     _is_qr_iban := false |}.

(** A customer invoice in CHF whose computed fields are still unset,
    but for the subscription given. *)
Definition invoice_with (name payment_ref subscription : char_field)
    (bank : option res_partner_bank) (amount : str * str)
  : account_move (str * str) :=
  {| name := name;
     type := Some ("out_invoice" : str);
     currency_name := Some ("CHF" : str);
     amount_residual := amount;
     invoice_partner_bank_id := bank;
     invoice_payment_ref := payment_ref;
     ref := None;
     l10n_ch_isr_subscription := subscription;
     l10n_ch_isr_subscription_formatted := None;
     l10n_ch_isr_number := None;
     l10n_ch_isr_number_spaced := None;
     l10n_ch_isr_optical_line := None;
     l10n_ch_isr_valid := false;
     l10n_ch_isr_sent := false |}.

(** The amount of an invoice given by its two texts. *)
Definition split_given (amount : str * str) (precision_digits : nat) : str * str :=
  amount.

(** ISR-B with the customer number 150001. *)
Definition isrb_invoice : account_move (str * str) :=
  invoice_with (Some ("INV/2021/0001" : str)) None (Some ("010001628" : str))
    (Some (bank_with (Some ("150001" : str)) (Some ("01-162-8" : str))))
    ("3949" : str, "75" : str).

(** A bank account whose customer number field holds 27 digits. *)
Definition long_id_invoice : account_move (str * str) :=
  invoice_with (Some ("1" : str)) None (Some ("010001628" : str))
    (Some (bank_with (Some ("111111111111111111111111111" : str))
             (Some ("01-162-8" : str))))
    ("1" : str, "00" : str).

(** An invoice that carries the payment reference of the docstring of
    [_has_isr_ref]. *)
Definition bill_with_ref : account_move (str * str) :=
  invoice_with (Some ("BILL/1" : str)) (Some ("12371" : str)) None None
    ("1" : str, "00" : str).

(** The same reference written in blocks, and followed by a line feed. *)
Definition bill_with_spaced_ref : account_move (str * str) :=
  invoice_with (Some ("BILL/2" : str))
    (Some ("21 00000 00003 13947 14300 09017" : str)) None None
    ("1" : str, "00" : str).

Definition bill_with_line_feed : account_move (str * str) :=
  invoice_with (Some ("BILL/3" : str))
    (Some (("12371" : str) ++ [ascii_of_nat 10])) None None
    ("1" : str, "00" : str).

(** A bank account whose subscription is a lone hyphen. *)
Definition hyphen_invoice : account_move (str * str) :=
  invoice_with (Some ("INV/1" : str)) None None
    (Some (bank_with None (Some ("-" : str))))
    ("1" : str, "00" : str).


(** An invoice that has no name yet. *)
Definition draft_invoice : account_move (str * str) :=
  invoice_with None None (Some ("010001628" : str))
    (Some (bank_with None (Some ("01-162-8" : str))))
    ("1" : str, "00" : str).

(** The ISR-B invoice once its reference is stored ... *)
Definition isrb_invoice_numbered : account_move (str * str) :=
  set_l10n_ch_isr_number (Some ("150001000000000000202100013" : str)) isrb_invoice.

(** ... and once its subscription is computed again from the bank
    account. *)
Definition isrb_invoice_ready : account_move (str * str) :=
  set_l10n_ch_isr_subscription_formatted (Some ("01-162-8" : str))
    (set_l10n_ch_isr_subscription (Some ("010001628" : str))
       (set_l10n_ch_isr_subscription_formatted None
          (set_l10n_ch_isr_subscription None isrb_invoice_numbered))).

(** A vendor bill of a Swiss company, with the payment reference of the
    docstring of [_has_isr_ref]. *)
Definition vendor_bill : account_move (str * str) :=
  {| name := Some ("BILL/4" : str);
     type := Some ("in_invoice" : str);
     currency_name := Some ("CHF" : str);
     amount_residual := ("1" : str, "00" : str);
     invoice_partner_bank_id := Some (bank_with (Some ("01-162-8" : str)) None);
     invoice_payment_ref := Some ("12371" : str);
     ref := None;
     l10n_ch_isr_subscription := None;
     l10n_ch_isr_subscription_formatted := None;
     l10n_ch_isr_number := None;
     l10n_ch_isr_number_spaced := None;
     l10n_ch_isr_optical_line := None;
     l10n_ch_isr_valid := false;
     l10n_ch_isr_sent := false |}.

Definition swiss_company (inv : account_move (str * str)) : char_field :=
  Some ("CH" : str).

Definition every_bank_issues_isr (bank : option res_partner_bank) : bool := true.

(** A plain ISR invoice: a subscription and no customer number. *)
Definition isr_invoice : account_move (str * str) :=
  invoice_with (Some ("INV/2021/0002" : str)) None (Some ("010001628" : str))
    (Some (bank_with None (Some ("01-162-8" : str))))
    ("494" : str, "00" : str).

(** Bills paid with the reference of the ISR-B invoice, as stored and as
    displayed. *)
Definition bill_paying_isrb : account_move (str * str) :=
  invoice_with (Some ("BILL/5" : str))
    (Some ("150001000000000000202100013" : str)) None None
    ("3949" : str, "75" : str).

Definition bill_paying_isrb_spaced : account_move (str * str) :=
  invoice_with (Some ("BILL/6" : str))
    (Some ("15 00010 00000 00000 02021 00013" : str)) None None
    ("3949" : str, "75" : str).

(** Reads the fields of a record that was built by assignments. *)
Ltac fields :=
  cbn [name type currency_name amount_residual invoice_partner_bank_id
       invoice_payment_ref ref l10n_ch_isr_subscription
       l10n_ch_isr_subscription_formatted l10n_ch_isr_number
       l10n_ch_isr_number_spaced l10n_ch_isr_optical_line l10n_ch_isr_valid
       l10n_ch_isr_sent
       set_l10n_ch_isr_subscription set_l10n_ch_isr_subscription_formatted
       set_l10n_ch_isr_number set_l10n_ch_isr_number_spaced
       set_l10n_ch_isr_optical_line set_l10n_ch_isr_valid
       set_l10n_ch_isr_sent orb] in *.

(** * Properties *)

(** ** The docstrings of the module *)

(** The examples of the docstrings of the module. *)
Example mod10r_docstring_isr :
  mod10r "12000000000023447894321689" = Ok ("120000000000234478943216899" : str).
Proof. reflexivity. Qed.

Example mod10r_docstring_has_isr_ref :
  mod10r "1237" = Ok ("12371" : str)
  /\ mod10r "21000000000313947143000901" = Ok ("210000000003139471430009017" : str).
Proof. split; reflexivity. Qed.

Example mod10r_docstring_amount :
  mod10r "010000394975" = Ok ("0100003949753" : str)
  /\ mod10r "010000049400" = Ok ("0100000494004" : str).
Proof. split; reflexivity. Qed.

Example space_isr_example :
  _space_isr_number "210000000003139471430009017"
  = ("21 00000 00003 13947 14300 09017" : str).
Proof. reflexivity. Qed.

(** ** Characters and padding *)

Lemma is_digit_digit_char (d : nat) : d < 10 -> is_digit (digit_char d) = true.
Proof.
  intros H. do 10 (destruct d as [|d]; [reflexivity|]). lia.
Qed.

Lemma newline_not_digit : is_digit newline = false.
Proof. reflexivity. Qed.

Lemma length_zeros (n : nat) : length (zeros n) = n.
Proof. apply repeat_length. Qed.

Lemma all_digits_zeros (n : nat) : all_digits (zeros n) = true.
Proof. induction n; simpl; auto. Qed.

Lemma all_digits_app (a b : str) :
  all_digits (a ++ b) = all_digits a && all_digits b.
Proof. apply forallb_app. Qed.

Lemma length_rjust0 (w : nat) (s : str) :
  length (rjust0 w s) = Nat.max w (length s).
Proof.
  unfold rjust0. destruct (Nat.leb_spec w (length s)).
  - lia.
  - rewrite length_app, length_zeros. lia.
Qed.

Lemma length_zfill (w : Z) (s : str) :
  Z.of_nat (length (zfill w s)) = Z.max w (Z.of_nat (length s)).
Proof.
  unfold zfill. destruct (Z.leb_spec (w - Z.of_nat (length s)) 0) as [H|H].
  - lia.
  - destruct s as [|c rest].
    + rewrite length_zeros. simpl in *. lia.
    + destruct (char_eqb c "+" || char_eqb c "-"); simpl in *;
        rewrite length_app, length_zeros; simpl; lia.
Qed.

(** On digits [zfill] has no sign to step over. *)
Lemma zfill_digits (w : Z) (s : str) :
  all_digits s = true ->
  zfill w s = zeros (Z.to_nat (w - Z.of_nat (length s))) ++ s.
Proof.
  intros Hd. unfold zfill.
  destruct (Z.leb_spec (w - Z.of_nat (length s)) 0) as [H|H].
  - replace (Z.to_nat _) with 0 by lia. reflexivity.
  - destruct s as [|c rest].
    + rewrite app_nil_r. reflexivity.
    + simpl in Hd. apply andb_true_iff in Hd as [Hc _].
      destruct (char_eqb c "+") eqn:Ep.
      { apply Ascii.eqb_eq in Ep. subst c. discriminate. }
      destruct (char_eqb c "-") eqn:Em.
      { apply Ascii.eqb_eq in Em. subst c. discriminate. }
      reflexivity.
Qed.

Lemma all_digits_zfill (w : Z) (s : str) :
  all_digits s = true -> all_digits (zfill w s) = true.
Proof.
  intros Hd. rewrite zfill_digits by assumption.
  rewrite all_digits_app, all_digits_zeros, Hd. reflexivity.
Qed.

Lemma all_digits_keep_digits (s : str) : all_digits (keep_digits s) = true.
Proof.
  apply forallb_forall. intros c Hc. apply filter_In in Hc. tauto.
Qed.

Lemma all_digits_skipn (n : nat) (s : str) :
  all_digits s = true -> all_digits (skipn n s) = true.
Proof.
  intros Hd. rewrite <- (firstn_skipn n s), all_digits_app in Hd.
  apply andb_true_iff in Hd. tauto.
Qed.

Lemma all_digits_firstn (n : nat) (s : str) :
  all_digits s = true -> all_digits (firstn n s) = true.
Proof.
  intros Hd. rewrite <- (firstn_skipn n s), all_digits_app in Hd.
  apply andb_true_iff in Hd. tauto.
Qed.

Lemma str_eqb_eq (a b : str) : str_eqb a b = true <-> a = b.
Proof.
  unfold str_eqb. destruct (list_eq_dec ascii_dec a b); split; congruence.
Qed.

(** ** The checksum *)

Lemma mod10r_carry_digits (s : str) :
  all_digits s = true -> forall k, exists c, mod10r_carry k s = Ok c.
Proof.
  induction s as [|c s IH]; simpl; intros Hd k.
  - eauto.
  - apply andb_true_iff in Hd as [Hc Hs]. rewrite Hc. apply IH, Hs.
Qed.

Lemma mod10r_carry_ok (s : str) :
  forall k c, mod10r_carry k s = Ok c -> all_digits s = true.
Proof.
  induction s as [|x s IH]; simpl; intros k c H.
  - reflexivity.
  - destruct (is_digit x); [|discriminate]. simpl. eapply IH, H.
Qed.

(** On digits [mod10r] appends one digit to its input. *)
Lemma mod10r_digits (s : str) :
  all_digits s = true ->
  exists d, d < 10 /\ mod10r s = Ok (s ++ [digit_char d]).
Proof.
  intros Hd. destruct (mod10r_carry_digits s Hd 0) as [c Hc].
  exists ((10 - c) mod 10). split.
  - apply Nat.mod_upper_bound. lia.
  - unfold mod10r. rewrite Hc. reflexivity.
Qed.

Lemma mod10r_ok (s r : str) :
  mod10r s = Ok r ->
  all_digits s = true /\ all_digits r = true /\ length r = S (length s)
  /\ drop_last_chars 1 r = s.
Proof.
  intros H.
  assert (Hd : all_digits s = true).
  { unfold mod10r in H. destruct (mod10r_carry 0 s) as [c|e] eqn:Hc.
    - apply (mod10r_carry_ok _ _ Hc).
    - discriminate H. }
  destruct (mod10r_digits s Hd) as (d & Hlt & Hr).
  rewrite Hr in H. injection H as <-.
  repeat split.
  - assumption.
  - rewrite all_digits_app, Hd. unfold all_digits, forallb.
    rewrite (is_digit_digit_char Hlt). reflexivity.
  - rewrite length_app. cbn [length]. lia.
  - unfold drop_last_chars. rewrite length_app. cbn [length].
    replace (length s + 1 - 1) with (length s + 0) by lia.
    rewrite firstn_app_2. cbn [firstn]. apply app_nil_r.
Qed.

(** ** The pattern of the validator *)

Lemma digits_prefix_all (s : str) :
  all_digits s = true -> digits_prefix s = length s.
Proof.
  induction s as [|c s IH]; cbn [all_digits forallb digits_prefix length]; intros H.
  - reflexivity.
  - apply andb_true_iff in H as [Hc Hs]. rewrite Hc, (IH Hs). reflexivity.
Qed.

Lemma digits_prefix_firstn (s : str) :
  all_digits (firstn (digits_prefix s) s) = true.
Proof.
  induction s as [|c s IH]; cbn [digits_prefix]; [reflexivity|].
  destruct (is_digit c) eqn:Hc; [|reflexivity].
  cbn [firstn all_digits forallb]. rewrite Hc. exact IH.
Qed.

Lemma match_isr_ref_digits (s : str) :
  all_digits s = true ->
  match_isr_ref s = true <-> 2 <= length s <= 27.
Proof.
  intros Hd. unfold match_isr_ref.
  rewrite (digits_prefix_all _ Hd), skipn_all, andb_true_r, andb_true_iff.
  rewrite !Nat.leb_le. reflexivity.
Qed.

(** A text the pattern accepts is made of digits, or of digits and the
    line feed that [$] lets through. *)
Lemma match_isr_ref_inv (s : str) :
  match_isr_ref s = true ->
  all_digits s = true
  \/ exists d, s = d ++ [newline] /\ all_digits d = true /\ d <> [].
Proof.
  unfold match_isr_ref. intros H.
  apply andb_true_iff in H as [Hlen Hrest].
  apply andb_true_iff in Hlen as [Hlo _]. apply Nat.leb_le in Hlo.
  pose proof (digits_prefix_firstn s) as Hpre.
  pose proof (firstn_skipn (digits_prefix s) s) as Hsplit.
  destruct (skipn (digits_prefix s) s) as [|c [|c' rest]].
  - left. rewrite app_nil_r in Hsplit. rewrite <- Hsplit. exact Hpre.
  - right. apply Ascii.eqb_eq in Hrest. subst c.
    exists (firstn (digits_prefix s) s). repeat split; auto.
    intros E. apply (f_equal (@length ascii)) in E.
    rewrite length_firstn in E. cbn [length] in E.
    assert (digits_prefix s <= length s).
    { clear. induction s as [|c s IH]; cbn [digits_prefix length]; [lia|].
      destruct (is_digit c); lia. }
    lia.
  - discriminate Hrest.
Qed.

Lemma all_digits_drop_last (n : nat) (s : str) :
  all_digits s = true -> all_digits (drop_last_chars n s) = true.
Proof. apply all_digits_firstn. Qed.

Lemma drop_last_snoc (d : str) (c : ascii) : drop_last_chars 1 (d ++ [c]) = d.
Proof.
  unfold drop_last_chars. rewrite length_app. cbn [length].
  replace (length d + 1 - 1) with (length d + 0) by lia.
  rewrite firstn_app_2. cbn [firstn]. apply app_nil_r.
Qed.

Lemma remove_char_digits (c : ascii) (s : str) :
  is_digit c = false -> all_digits s = true -> remove_char c s = s.
Proof.
  intros Hc. induction s as [|x s IH]; cbn [all_digits forallb remove_char filter]; intros H.
  - reflexivity.
  - apply andb_true_iff in H as [Hx Hs].
    destruct (char_eqb x c) eqn:E.
    + apply Ascii.eqb_eq in E. subst x. congruence.
    + cbn [negb]. f_equal. apply IH, Hs.
Qed.

Section Validator.

Context {float : Type}.
Implicit Type self : account_move float.

(** What [_has_isr_ref] answers on the candidate once its spaces are
    gone. *)
Lemma has_isr_ref_stripped (s : str) :
  exists b,
    (if match_isr_ref s
     then checked <- mod10r (drop_last_chars 1 s) ;; Ok (str_eqb s checked)
     else Ok false) = Ok b
    /\ (b = true <->
        all_digits s = true /\ 2 <= length s <= 27
        /\ mod10r (drop_last_chars 1 s) = Ok s).
Proof.
  destruct (match_isr_ref s) eqn:Hm.
  - destruct (match_isr_ref_inv s Hm) as [Hd | (d & -> & Hd & Hne)].
    + destruct (mod10r_digits _ (all_digits_drop_last 1 s Hd)) as (k & Hk & Hr).
      rewrite Hr. cbn [bind]. eexists. split; [reflexivity|].
      rewrite str_eqb_eq. split.
      * intros E. rewrite <- E.
        split; [exact Hd | split; [|reflexivity]].
        apply match_isr_ref_digits; assumption.
      * intros (_ & _ & E). congruence.
    + rewrite drop_last_snoc.
      destruct (mod10r_digits _ Hd) as (k & Hk & Hr).
      rewrite Hr. cbn [bind]. eexists. split; [reflexivity|].
      rewrite str_eqb_eq. split.
      * intros E. apply app_inv_head in E. injection E as E.
        pose proof (is_digit_digit_char Hk) as Hdig.
        rewrite <- E, newline_not_digit in Hdig. discriminate.
      * intros (Hall & _). rewrite all_digits_app in Hall.
        apply andb_true_iff in Hall as [_ Hnl].
        cbn [all_digits forallb] in Hnl. rewrite newline_not_digit in Hnl.
        discriminate.
  - exists false. split; [reflexivity|]. split; [discriminate|].
    intros (Hd & Hlen & _).
    apply (match_isr_ref_digits _ Hd) in Hlen. congruence.
Qed.

(** C2.  On every invoice [_has_isr_ref] returns a boolean and raises
    nothing, and it returns [True] exactly when there is a candidate
    (the payment reference, or else the reference of the invoice) that,
    once its spaces are removed, is made of 2 to 27 digits and is what
    [mod10r] gives on it without its last digit. *)
Theorem has_isr_ref_spec self :
  exists b,
    _has_isr_ref self = Ok b
    /\ (b = true <->
        exists candidate,
          py_or (invoice_payment_ref self) (ref self) = Some candidate
          /\ all_digits (remove_char " " candidate) = true
          /\ 2 <= length (remove_char " " candidate) <= 27
          /\ mod10r (drop_last_chars 1 (remove_char " " candidate))
             = Ok (remove_char " " candidate)).
Proof.
  unfold _has_isr_ref.
  destruct (py_or (invoice_payment_ref self) (ref self)) as [[|c cand]|] eqn:Hc.
  - exists false. split; [reflexivity|]. split; [discriminate|].
    intros (x & Hx & _ & Hlen & _). injection Hx as <-.
    cbn in Hlen. lia.
  - cbn [truthy negb text_of].
    destruct (has_isr_ref_stripped (remove_char " " (c :: cand))) as (b & Hb & Hiff).
    exists b. split; [exact Hb|]. rewrite Hiff. split.
    + intros H. exists (c :: cand). tauto.
    + intros (x & Hx & H). injection Hx as <-. exact H.
  - exists false. split; [reflexivity|]. split; [discriminate|].
    intros (x & Hx & _). discriminate.
Qed.

(** C3.  For a text [d] of 1 to 26 digits, [mod10r] gives [d] and one
    more digit, and an invoice whose candidate reference is that text is
    found valid by [_has_isr_ref]. *)
Theorem has_isr_ref_mod10r (d : str) self :
  all_digits d = true ->
  1 <= length d <= 26 ->
  exists checked k,
    k < 10 /\ checked = d ++ [digit_char k]
    /\ mod10r d = Ok checked
    /\ (py_or (invoice_payment_ref self) (ref self) = Some checked ->
        _has_isr_ref self = Ok true).
Proof.
  intros Hd Hlen.
  destruct (mod10r_digits d Hd) as (k & Hk & Hr).
  exists (d ++ [digit_char k]), k. repeat split; auto.
  intros Hcand.
  destruct (mod10r_ok _ Hr) as (_ & Hall & Hl & Hdrop).
  assert (Hsp : remove_char " " (d ++ [digit_char k]) = d ++ [digit_char k])
    by (apply remove_char_digits; [reflexivity | exact Hall]).
  assert (Htruthy : truthy (Some (d ++ [digit_char k])) = true)
    by (destruct d; reflexivity).
  unfold _has_isr_ref. rewrite Hcand, Htruthy. cbn [negb text_of]. rewrite Hsp.
  destruct (has_isr_ref_stripped (d ++ [digit_char k])) as (b & Hb & Hiff).
  rewrite Hb. f_equal. apply Hiff. rewrite Hdrop.
  split; [exact Hall | split; [lia | exact Hr]].
Qed.

End Validator.

(** ** The reference builder *)

Lemma length_isr_id_part (id_number : str) :
  length (isr_id_part id_number)
  = match id_number with [] => 0 | _ :: _ => Nat.max 6 (length id_number) end.
Proof.
  unfold isr_id_part, l10n_ch_ISR_ID_NUM_LENGTH.
  destruct id_number as [|c rest]; [reflexivity|].
  pose proof (length_zfill 6 (c :: rest)). lia.
Qed.

Lemma all_digits_isr_id_part (id_number : str) :
  all_digits id_number = true -> all_digits (isr_id_part id_number) = true.
Proof.
  unfold isr_id_part. destruct id_number; [reflexivity|].
  apply all_digits_zfill.
Qed.

(** The part of the invoice digits the builder keeps, and its padding. *)
Lemma isr_number_body_eq (id_number name : str) :
  isr_number_body id_number name
  = isr_id_part id_number
    ++ zfill (26 - Z.of_nat (length (isr_id_part id_number)))
         (skipn (length (isr_id_part id_number) + length (keep_digits name) - 26)
            (keep_digits name)).
Proof.
  cbv beta zeta delta [isr_number_body].
  destruct (Z.ltb_spec 0
    (Z.of_nat (length (isr_id_part id_number))
     + Z.of_nat (length (keep_digits name)) - 26)) as [H|H].
  - do 3 f_equal. lia.
  - replace (_ + _ - 26) with 0 by lia. reflexivity.
Qed.

Lemma length_isr_number_body (id_number name : str) :
  length (isr_id_part id_number) <= 26 ->
  length (isr_number_body id_number name) = 26.
Proof.
  intros Hid. rewrite isr_number_body_eq, length_app.
  pose proof (length_zfill (26 - Z.of_nat (length (isr_id_part id_number)))
    (skipn (length (isr_id_part id_number) + length (keep_digits name) - 26)
       (keep_digits name))) as Hz.
  rewrite length_skipn in Hz. lia.
Qed.

Lemma all_digits_isr_number_body (id_number name : str) :
  all_digits id_number = true ->
  all_digits (isr_number_body id_number name) = true.
Proof.
  intros Hd. rewrite isr_number_body_eq, all_digits_app.
  rewrite (all_digits_isr_id_part _ Hd).
  apply all_digits_zfill, all_digits_skipn, all_digits_keep_digits.
Qed.

(** X20.  When the padded customer number has at most 26
    characters and, with the digits of the invoice name, more than 26:
    exactly [total - 26] digits are dropped on the left of the invoice
    digits, the digits kept are the rightmost ones, they are zero-filled
    to the width 26 less the length of the customer number, and the body
    is the customer number followed by them, 26 characters in all. *)
Theorem isr_number_body_truncation (id_number name : str) :
  let id_part := isr_id_part id_number in
  let invoice_digits := keep_digits name in
  let total := length id_part + length invoice_digits in
  let kept := skipn (total - 26) invoice_digits in
  let internal_ref := zfill (26 - Z.of_nat (length id_part)) kept in
  26 < total ->
  length id_part <= 26 ->
  total - 26 <= length invoice_digits
  /\ length invoice_digits - length kept = total - 26
  /\ invoice_digits = firstn (total - 26) invoice_digits ++ kept
  /\ length internal_ref = 26 - length id_part
  /\ isr_number_body id_number name = id_part ++ internal_ref
  /\ length (isr_number_body id_number name) = 26.
Proof.
  intros id_part invoice_digits total kept internal_ref Htotal Hid.
  assert (Hk : length kept = length invoice_digits - (total - 26))
    by apply length_skipn.
  pose proof (length_zfill (26 - Z.of_nat (length id_part)) kept) as Hz.
  fold internal_ref in Hz.
  repeat split.
  - subst total. lia.
  - subst total. lia.
  - symmetry. apply firstn_skipn.
  - subst total. lia.
  - apply isr_number_body_eq.
  - apply length_isr_number_body. exact Hid.
Qed.

Section ReferenceNumber.

Context {float : Type}.
Implicit Type record : account_move float.

(** X19.  On an invoice whose reference is computed (a QR-IBAN
    account or a subscription, and a name) and whose customer number has
    at most 26 characters, the reference that
    [_compute_l10n_ch_isr_number] stores has exactly 27 characters; and
    the method stores one, raising nothing, when the customer number is
    made of digits. *)
Theorem isr_number_width record :
  (has_qriban record || truthy (l10n_ch_isr_subscription record))
  && truthy (name record) = true ->
  length (_get_isrb_id_number record) <= 26 ->
  (forall record',
      _compute_l10n_ch_isr_number record = Ok record' ->
      exists number,
        record' = set_l10n_ch_isr_number (Some number) record
        /\ length number = 27)
  /\ (all_digits (_get_isrb_id_number record) = true ->
      exists record', _compute_l10n_ch_isr_number record = Ok record').
Proof.
  intros Hcond Hlen. unfold _compute_l10n_ch_isr_number.
  rewrite Hcond.
  set (body := isr_number_body _ _).
  assert (Hl : length body = 26).
  { apply length_isr_number_body. rewrite length_isr_id_part.
    destruct (_get_isrb_id_number record); cbn [length] in *; lia. }
  split.
  - intros record' H.
    destruct (mod10r body) as [number|e] eqn:Hr; cbn [bind] in H; [|discriminate H].
    injection H as <-. exists number. split; [reflexivity|].
    destruct (mod10r_ok _ Hr) as (_ & _ & Hn & _). rewrite Hn, Hl. reflexivity.
  - intros Hd.
    assert (Hbody : all_digits body = true)
      by (apply all_digits_isr_number_body; exact Hd).
    destruct (mod10r_digits body Hbody) as (k & Hk & Hr).
    rewrite Hr. cbn [bind]. eexists. reflexivity.
Qed.

End ReferenceNumber.

(** ** The subscription formatters *)

(** C7, amended.  On a subscription of 3 to 9 characters the scanline is
    the first two characters, the middle part with zeros on its left up
    to 6 characters, and the last character: 9 characters in all. *)
Theorem scanline_width (raw : str) :
  3 <= length raw <= 9 ->
  let middle := slice 2 (length raw - 1) raw in
  _format_isr_subscription_scanline raw
  = firstn 2 raw ++ (zeros (6 - length middle) ++ middle) ++ last_chars 1 raw
  /\ length (firstn 2 raw) = 2
  /\ length (zeros (6 - length middle) ++ middle) = 6
  /\ length (last_chars 1 raw) = 1
  /\ length (_format_isr_subscription_scanline raw) = 9.
Proof.
  intros Hlen middle.
  assert (Hm : length middle = length raw - 3).
  { subst middle. unfold slice. rewrite length_skipn, length_firstn. lia. }
  assert (Hf : length (firstn 2 raw) = 2) by (rewrite length_firstn; lia).
  assert (Hl : length (last_chars 1 raw) = 1)
    by (unfold last_chars; rewrite length_skipn; lia).
  assert (Hr : rjust0 6 middle = zeros (6 - length middle) ++ middle).
  { unfold rjust0. destruct (Nat.leb_spec 6 (length middle)) as [H|H]; [|reflexivity].
    replace (6 - length middle) with 0 by lia. reflexivity. }
  unfold _format_isr_subscription_scanline. fold middle. rewrite Hr.
  repeat split; auto.
  - rewrite length_app, length_zeros. lia.
  - rewrite !length_app, length_zeros. lia.
Qed.

(** The width of the scanline whatever the subscription: the middle part
    is never cut. *)
Lemma scanline_length (raw : str) :
  3 <= length raw ->
  length (_format_isr_subscription_scanline raw) = Nat.max 9 (length raw).
Proof.
  intros Hlen. unfold _format_isr_subscription_scanline, last_chars, slice.
  rewrite !length_app, length_rjust0, !length_skipn, !length_firstn. lia.
Qed.

(** C9, amended.  The subscription 010001628 is displayed as 01-162-8,
    as the docstring of the optical line has it. *)
Theorem format_isr_subscription_example :
  _format_isr_subscription "010001628" = Ok ("01-162-8" : str).
Proof. reflexivity. Qed.

(** ** The display routines *)

Lemma remove_char_app (c : ascii) (a b : str) :
  remove_char c (a ++ b) = remove_char c a ++ remove_char c b.
Proof. apply filter_app. Qed.

Lemma remove_char_absent (c : ascii) (s : str) :
  ~ In c s -> remove_char c s = s.
Proof.
  induction s as [|x s IH]; cbn [remove_char filter In]; intros H.
  - reflexivity.
  - destruct (char_eqb x c) eqn:E.
    + apply Ascii.eqb_eq in E. tauto.
    + cbn [negb]. f_equal. apply IH. tauto.
Qed.

Lemma drop_last_app_last (n : nat) (s : str) :
  drop_last_chars n s ++ last_chars n s = s.
Proof. apply firstn_skipn. Qed.

(** The loop of [_space_isr_number] only puts spaces into its text. *)
Lemma space_isr_loop_remove (to_treat res : str) :
  remove_char " " (space_isr_loop to_treat res)
  = remove_char " " to_treat ++ remove_char " " res.
Proof.
  funelim (space_isr_loop to_treat res).
  - reflexivity.
  - simp space_isr_loop. cbv zeta.
    match goal with IH : remove_char _ (space_isr_loop _ _) = _ |- _ => rewrite IH end.
    rewrite <- (drop_last_app_last 5 (c :: t)) at 3.
    rewrite (remove_char_app _ (drop_last_chars 5 (c :: t))), <- app_assoc.
    f_equal.
    destruct (drop_last_chars 5 (c :: t));
      rewrite ?remove_char_app; reflexivity.
Qed.

Lemma firstn_slice (lo hi : nat) (s : str) :
  lo <= hi -> firstn lo s ++ slice lo hi s = firstn hi s.
Proof.
  intros H. unfold slice.
  rewrite <- (firstn_skipn lo (firstn hi s)) at 2.
  rewrite firstn_firstn, Nat.min_l by exact H. reflexivity.
Qed.

(** The loop of [space_qrr_reference] only puts spaces into its text. *)
Lemma space_qrr_loop_remove (qrr_ref : str) (i : Z) (spaced : str) :
  remove_char " " (space_qrr_loop qrr_ref i spaced)
  = remove_char " " (firstn (Z.to_nat i) qrr_ref) ++ remove_char " " spaced.
Proof.
  funelim (space_qrr_loop qrr_ref i spaced).
  - match goal with IH : remove_char _ (space_qrr_loop _ _ _) = _ |- _ => rewrite IH end.
    rewrite !remove_char_app, app_assoc, <- remove_char_app.
    replace (Z.to_nat (i - 5)) with (Z.to_nat (Z.max (i - 5) 0)) by lia.
    rewrite firstn_slice by lia. reflexivity.
  - replace (Z.to_nat i) with 0 by lia. reflexivity.
Qed.

(** The loop of [_space_isr_number] only writes in front of [res]. *)
Lemma space_isr_loop_res (to_treat res : str) :
  space_isr_loop to_treat res = space_isr_loop to_treat [] ++ res.
Proof.
  remember (length to_treat) as n eqn:Hn.
  revert to_treat res Hn.
  induction n as [n IH] using lt_wf_ind. intros to_treat res Hn.
  destruct to_treat as [|c t].
  - reflexivity.
  - simp space_isr_loop. cbv zeta.
    assert (Hlt : length (drop_last_chars 5 (c :: t)) < n).
    { subst n. unfold drop_last_chars. rewrite length_firstn. cbn [length]. lia. }
    rewrite (IH _ Hlt _ _ eq_refl). symmetry.
    rewrite (IH _ Hlt _ _ eq_refl). symmetry.
    rewrite <- app_assoc. f_equal.
    destruct (drop_last_chars 5 (c :: t));
      rewrite app_nil_r, <- ?app_assoc; reflexivity.
Qed.

(** Where [i] is a length inside the text, the loop of
    [space_qrr_reference] does what the loop of [_space_isr_number] does
    on the first [i] characters, with one more space behind them. *)
Lemma space_qrr_loop_isr (qrr_ref : str) (i : Z) (spaced : str) :
  (0 < i <= Z.of_nat (length qrr_ref))%Z ->
  space_qrr_loop qrr_ref i spaced
  = space_isr_loop (firstn (Z.to_nat i) qrr_ref) (" " ++ spaced).
Proof.
  funelim (space_qrr_loop qrr_ref i spaced); intros Hi; [|lia].
  assert (Hlen : length (firstn (Z.to_nat i) qrr_ref) = Z.to_nat i)
    by (rewrite length_firstn; lia).
  destruct (firstn (Z.to_nat i) qrr_ref) as [|c t] eqn:Ht;
    [cbn [length] in Hlen; lia|].
  simp space_isr_loop. cbv zeta. rewrite <- Ht.
  assert (Hdrop : drop_last_chars 5 (firstn (Z.to_nat i) qrr_ref)
                  = firstn (Z.to_nat (i - 5)) qrr_ref).
  { unfold drop_last_chars. rewrite Ht, Hlen, <- Ht, firstn_firstn.
    f_equal. lia. }
  assert (Hlast : last_chars 5 (firstn (Z.to_nat i) qrr_ref)
                  = slice (Z.to_nat (Z.max (i - 5) 0)) (Z.to_nat i) qrr_ref).
  { unfold last_chars, slice. rewrite Ht, Hlen, <- Ht. f_equal. lia. }
  rewrite Hdrop, Hlast.
  destruct (Z_lt_dec 0 (i - 5)) as [Hpos|Hneg].
  - match goal with
    | IH : _ -> space_qrr_loop _ _ _ = _ |- _ => rewrite IH by lia
    end.
    assert (Hl5 : length (firstn (Z.to_nat (i - 5)) qrr_ref) = Z.to_nat (i - 5))
      by (rewrite length_firstn; lia).
    destruct (firstn (Z.to_nat (i - 5)) qrr_ref);
      [cbn [length] in Hl5; lia|].
    reflexivity.
  - replace (Z.to_nat (i - 5)) with 0 by lia. cbn [firstn].
    simp space_qrr_loop. destruct (Z_lt_dec 0 (i - 5)); [lia|].
    simp space_isr_loop. rewrite <- ?app_assoc. reflexivity.
Qed.

(** On a text that is not empty [space_qrr_reference] gives the blocks
    of [_space_isr_number] and one more space after them. *)
Lemma space_qrr_reference_trailing_space (qrr_ref : str) :
  qrr_ref <> [] ->
  space_qrr_reference qrr_ref = _space_isr_number qrr_ref ++ " ".
Proof.
  intros Hne. unfold space_qrr_reference, _space_isr_number.
  rewrite space_qrr_loop_isr.
  - rewrite Nat2Z.id, firstn_all. apply space_isr_loop_res.
  - destruct qrr_ref; [congruence|]. cbn [length]. lia.
Qed.

(** C4.  On 123456789 [space_qrr_reference] ends its text with a space
    that [_space_isr_number] does not write: the two results differ. *)
Theorem space_qrr_reference_not_space_isr_number :
  space_qrr_reference "123456789" = ("1234 56789 " : str)
  /\ _space_isr_number "123456789" = ("1234 56789" : str)
  /\ str_eqb (space_qrr_reference "123456789") (_space_isr_number "123456789")
     = false.
Proof. repeat split; reflexivity. Qed.

(** C5, amended.  A text that holds no space comes back when the spaces
    are removed from its blocks of 5, with either routine. *)
Theorem grouping_round_trip (s : str) :
  ~ In " "%char s ->
  remove_char " " (_space_isr_number s) = s
  /\ remove_char " " (space_qrr_reference s) = s.
Proof.
  intros Hs. split.
  - unfold _space_isr_number. rewrite space_isr_loop_remove.
    cbn [remove_char filter]. rewrite app_nil_r.
    apply remove_char_absent, Hs.
  - unfold space_qrr_reference. rewrite space_qrr_loop_remove.
    cbn [remove_char filter]. rewrite app_nil_r, Nat2Z.id, firstn_all.
    apply remove_char_absent, Hs.
Qed.

(** ** The optical line *)

Section OpticalLine.

Context {float : Type}.
Variable float_split_str : float -> nat -> str * str.
Implicit Type record : account_move float.


(** The amount of the optical line is there when the currency is one
    of the two and the amount is written in digits. *)
Lemma optical_amount_ok record (units cents : str) :
  currency_in_eur_chf (currency_name record) = true ->
  float_split_str (amount_residual record) 2 = (units, cents) ->
  all_digits (units ++ cents) = true ->
  exists amount,
    _get_l10n_ch_isr_optical_amount float_split_str record = Ok amount
    /\ all_digits amount = true
    /\ length amount = Nat.max 13 (3 + length (units ++ cents)).
Proof.
  unfold currency_in_eur_chf, _get_l10n_ch_isr_optical_amount.
  intros Hcur Hsplit Hd. rewrite Hsplit.
  assert (Hz : all_digits (zfill 10 (units ++ cents)) = true)
    by (apply all_digits_zfill, Hd).
  pose proof (length_zfill 10 (units ++ cents)) as Hl.
  destruct (field_eqb (currency_name record) "CHF") eqn:Hchf.
  - destruct (mod10r_digits ("01" ++ zfill 10 (units ++ cents))) as (k & Hk & Hr).
    { rewrite all_digits_app, Hz. reflexivity. }
    rewrite Hr. eexists. split; [reflexivity|].
    destruct (mod10r_ok _ Hr) as (_ & Hall & Hlen & _).
    split; [exact Hall|]. rewrite Hlen, length_app. cbn [length list_ascii_of_string]. lia.
  - rewrite orb_false_r in Hcur. rewrite Hcur.
    destruct (mod10r_digits ("03" ++ zfill 10 (units ++ cents))) as (k & Hk & Hr).
    { rewrite all_digits_app, Hz. reflexivity. }
    rewrite Hr. eexists. split; [reflexivity|].
    destruct (mod10r_ok _ Hr) as (_ & Hall & Hlen & _).
    split; [exact Hall|]. rewrite Hlen, length_app. cbn [length list_ascii_of_string]. lia.
Qed.


(** What the optical line is made of once the amount is there. *)
Lemma optical_line_assembled record (amount : str) :
  truthy (l10n_ch_isr_number record)
  && truthy (l10n_ch_isr_subscription record)
  && truthy (currency_name record) = true ->
  _get_l10n_ch_isr_optical_amount float_split_str record = Ok amount ->
  _compute_l10n_ch_isr_optical_line float_split_str record
  = Ok (set_l10n_ch_isr_optical_line
          (Some (amount ++ ">"
                   ++ text_of (l10n_ch_isr_number record)
                   ++ "+ "
                   ++ text_of (l10n_ch_isr_subscription record)
                   ++ ">"))
          record).
Proof.
  intros Hp Ha. unfold _compute_l10n_ch_isr_optical_line.
  cbn [set_l10n_ch_isr_optical_line l10n_ch_isr_number
       l10n_ch_isr_subscription currency_name].
  rewrite Hp.
  replace (_get_l10n_ch_isr_optical_amount float_split_str _)
    with (_get_l10n_ch_isr_optical_amount float_split_str record)
    by reflexivity.
  rewrite Ha. reflexivity.
Qed.


End OpticalLine.

(** ** The print action *)

Section Print.

Context {float : Type}.
Implicit Type record : account_move float.

(** C10.  On an invoice whose validity flag, as
    [_compute_l10n_ch_isr_valid] sets it, is false, [isr_print] collects
    at least one reason and raises the [ValidationError] that carries
    the reasons: the [NotImplementedError] is not reached, and the
    record, its sent flag too, stays as it was. *)
Theorem isr_print_invalid record :
  l10n_ch_isr_valid (_compute_l10n_ch_isr_valid record) = false ->
  exists errors,
    errors <> []
    /\ isr_print (_compute_l10n_ch_isr_valid record)
       = (_compute_l10n_ch_isr_valid record, Raised (ValidationError errors))
    /\ l10n_ch_isr_sent (fst (isr_print (_compute_l10n_ch_isr_valid record)))
       = l10n_ch_isr_sent record.
Proof.
  intros Hvalid. unfold isr_print. rewrite Hvalid.
  unfold _compute_l10n_ch_isr_valid in *.
  cbn [set_l10n_ch_isr_valid l10n_ch_isr_valid invoice_partner_bank_id
       l10n_ch_isr_subscription type currency_name name] in *.
  destruct (invoice_partner_bank_id record) as [bank|];
    destruct (truthy (l10n_ch_isr_subscription record));
    destruct (field_eqb (type record) "out_invoice");
    destruct (currency_in_eur_chf (currency_name record));
    destruct (truthy (name record));
    cbn [negb app andb] in *; try discriminate Hvalid;
    (eexists; split; [|split; [reflexivity|reflexivity]]; discriminate).
Qed.

End Print.

(** * The statements on the invoices above *)

Example isrb_invoice_number :
  _compute_l10n_ch_isr_number isrb_invoice = Ok isrb_invoice_numbered.
Proof. reflexivity. Qed.

Example isrb_invoice_subscription :
  _compute_l10n_ch_isr_subscription isrb_invoice_numbered = Ok isrb_invoice_ready.
Proof. reflexivity. Qed.

(** The last character of an empty subscription is an [IndexError]. *)
Example hyphen_invoice_subscription :
  _compute_l10n_ch_isr_subscription hyphen_invoice = Raise IndexError.
Proof. reflexivity. Qed.

Example has_isr_ref_docstring :
  _has_isr_ref bill_with_ref = Ok true
  /\ _has_isr_ref bill_with_spaced_ref = Ok true.
Proof. split; reflexivity. Qed.

(** The pattern lets the line feed through and the checksum refuses it. *)
Example has_isr_ref_line_feed :
  match_isr_ref (text_of (invoice_payment_ref bill_with_line_feed)) = true
  /\ _has_isr_ref bill_with_line_feed = Ok false.
Proof. split; reflexivity. Qed.

Example isrb_invoice_optical_line :
  _compute_l10n_ch_isr_optical_line split_given isrb_invoice_ready
  = Ok (set_l10n_ch_isr_optical_line
          (Some ("0100003949753>150001000000000000202100013+ 010001628>" : str))
          isrb_invoice_ready).
Proof. reflexivity. Qed.

(** The reference of the ISR-B invoice is 27 characters long. *)
Lemma isr_number_width_witness :
  exists number,
    _compute_l10n_ch_isr_number isrb_invoice
    = Ok (set_l10n_ch_isr_number (Some number) isrb_invoice)
    /\ length number = 27.
Proof.
  assert (Hlen : length (_get_isrb_id_number isrb_invoice) <= 26)
    by (vm_compute; lia).
  destruct (isr_number_width isrb_invoice eq_refl Hlen) as [Hwidth Hok].
  destruct (Hok eq_refl) as (record' & Hr).
  destruct (Hwidth record' Hr) as (number & Hn & Hl).
  exists number. rewrite Hr, Hn. split; [reflexivity | exact Hl].
Defined.

(** C1.  The reference is not always 27 characters long: on an invoice
    whose reference is computed and whose customer number has 27 digits,
    [_compute_l10n_ch_isr_number] raises nothing and stores a reference
    of 28 characters, where its docstring has 27. *)
Theorem isr_number_overlong_customer_number :
  (has_qriban long_id_invoice || truthy (l10n_ch_isr_subscription long_id_invoice))
  && truthy (name long_id_invoice) = true
  /\ all_digits (_get_isrb_id_number long_id_invoice) = true
  /\ _compute_l10n_ch_isr_number long_id_invoice
     = Ok (set_l10n_ch_isr_number
             (Some ("1111111111111111111111111111" : str)) long_id_invoice)
  /\ length ("1111111111111111111111111111" : str) = 28.
Proof. repeat split; reflexivity. Qed.

(** The payment reference 12371 of the docstring is [mod10r] of 1237. *)
Lemma has_isr_ref_mod10r_witness :
  exists checked k,
    k < 10 /\ checked = ("1237" : str) ++ [digit_char k]
    /\ mod10r "1237" = Ok checked
    /\ (py_or (invoice_payment_ref bill_with_ref) (ref bill_with_ref) = Some checked ->
        _has_isr_ref bill_with_ref = Ok true).
Proof.
  apply (has_isr_ref_mod10r "1237" bill_with_ref); [reflexivity |].
  vm_compute. lia.
Defined.

(** C5 as it is written fails on a text that holds a space. *)
Lemma grouping_round_trip_counterexample :
  remove_char " " (_space_isr_number "a b") = ("ab" : str)
  /\ remove_char " " (space_qrr_reference "a b") = ("ab" : str)
  /\ str_eqb "ab" "a b" = false.
Proof. repeat split; reflexivity. Qed.

Lemma grouping_round_trip_witness :
  remove_char " " (_space_isr_number "123456789") = ("123456789" : str)
  /\ remove_char " " (space_qrr_reference "123456789") = ("123456789" : str).
Proof.
  apply (grouping_round_trip "123456789").
  intros H. cbn in H.
  repeat (destruct H as [H|H]; [discriminate H|]). exact H.
Defined.

(** C6.  The body is not always cut down to 26 characters: with a
    customer number of 27 digits and the one digit of the name the total
    is 28, one digit is dropped where [total - 26] is 2, and the body
    keeps 27 characters. *)
Theorem isr_number_body_overlong_customer_number :
  let id_number : str := "111111111111111111111111111" in
  let invoice_digits := keep_digits "1" in
  let total := length (isr_id_part id_number) + length invoice_digits in
  (26 <? total) = true
  /\ total - 26 = 2
  /\ length invoice_digits - length (skipn (total - 26) invoice_digits) = 1
  /\ length (isr_number_body id_number "1") = 27.
Proof. repeat split; reflexivity. Qed.

Lemma isr_number_body_truncation_witness :
  let id_number : str := "150001" in
  let name : str := "INV/2021/000123456789012345678" in
  let id_part := isr_id_part id_number in
  let invoice_digits := keep_digits name in
  let total := length id_part + length invoice_digits in
  let kept := skipn (total - 26) invoice_digits in
  let internal_ref := zfill (26 - Z.of_nat (length id_part)) kept in
  total - 26 <= length invoice_digits
  /\ length invoice_digits - length kept = total - 26
  /\ invoice_digits = firstn (total - 26) invoice_digits ++ kept
  /\ length internal_ref = 26 - length id_part
  /\ isr_number_body id_number name = id_part ++ internal_ref
  /\ length (isr_number_body id_number name) = 26.
Proof.
  apply (isr_number_body_truncation "150001" "INV/2021/000123456789012345678");
    vm_compute; lia.
Defined.

(** C7 as it is written fails on a subscription of 10 digits: its
    scanline has 10 characters. *)
Lemma scanline_width_counterexample :
  all_digits "0112345678" = true
  /\ (3 <=? length ("0112345678" : str)) = true
  /\ _format_isr_subscription_scanline "0112345678" = ("0112345678" : str)
  /\ length (_format_isr_subscription_scanline "0112345678") = 10.
Proof. repeat split; reflexivity. Qed.

Lemma scanline_width_witness :
  let raw : str := "011628" in
  let middle := slice 2 (length raw - 1) raw in
  _format_isr_subscription_scanline raw
  = firstn 2 raw ++ (zeros (6 - length middle) ++ middle) ++ last_chars 1 raw
  /\ length (firstn 2 raw) = 2
  /\ length (zeros (6 - length middle) ++ middle) = 6
  /\ length (last_chars 1 raw) = 1
  /\ length (_format_isr_subscription_scanline raw) = 9.
Proof.
  apply (scanline_width "011628"). vm_compute. lia.
Defined.

(** C9 as it is written fails: the display form of 010001628 is
    01-162-8 and not 01-1628-8. *)
Lemma format_isr_subscription_counterexample :
  _format_isr_subscription "010001628" = Ok ("01-162-8" : str)
  /\ str_eqb "01-162-8" "01-1628-8" = false.
Proof. split; reflexivity. Qed.



(** An invoice without a name cannot be printed. *)
Lemma isr_print_invalid_witness :
  exists errors,
    errors <> []
    /\ isr_print (_compute_l10n_ch_isr_valid draft_invoice)
       = (_compute_l10n_ch_isr_valid draft_invoice, Raised (ValidationError errors))
    /\ l10n_ch_isr_sent (fst (isr_print (_compute_l10n_ch_isr_valid draft_invoice)))
       = l10n_ch_isr_sent draft_invoice.
Proof.
  apply (isr_print_invalid draft_invoice). reflexivity.
Defined.

(** * Further properties of the module *)

(** ** The blocks of the display routines *)

Lemma space_isr_number_short (s : str) :
  length s <= 5 -> _space_isr_number s = s.
Proof.
  intros Hlen. unfold _space_isr_number. destruct s as [|c t]; [reflexivity|].
  simp space_isr_loop. cbv zeta.
  unfold drop_last_chars, last_chars.
  replace (length (c :: t) - 5) with 0 by lia.
  cbn [firstn skipn]. simp space_isr_loop. apply app_nil_r.
Qed.

Lemma space_isr_number_long (s : str) :
  5 < length s ->
  _space_isr_number s
  = _space_isr_number (drop_last_chars 5 s) ++ " " ++ last_chars 5 s.
Proof.
  intros Hlen. unfold _space_isr_number.
  destruct s as [|c t]; [cbn [length] in Hlen; lia|].
  simp space_isr_loop. cbv zeta.
  assert (Hd : length (drop_last_chars 5 (c :: t)) = length (c :: t) - 5)
    by (unfold drop_last_chars; rewrite length_firstn; lia).
  destruct (drop_last_chars 5 (c :: t)) as [|a l] eqn:E;
    [cbn [length] in *; lia|].
  rewrite space_isr_loop_res, app_nil_r. reflexivity.
Qed.

(** X1.  [_space_isr_number] leaves a text of at most 5 characters as it
    is, and on a longer one it gives the blocks of the text without its
    last 5 characters, a space, and the last 5 characters. *)
Theorem space_isr_number_blocks (s : str) :
  (length s <= 5 -> _space_isr_number s = s)
  /\ (5 < length s ->
      _space_isr_number s
      = _space_isr_number (drop_last_chars 5 s) ++ " " ++ last_chars 5 s).
Proof.
  split; [apply space_isr_number_short | apply space_isr_number_long].
Qed.

Lemma length_space_isr_number (s : str) :
  length (_space_isr_number s) = length s + (length s - 1) / 5.
Proof.
  remember (length s) as n eqn:Hn. revert s Hn.
  induction n as [n IH] using lt_wf_ind. intros s Hn.
  destruct (Nat.le_gt_cases n 5) as [Hle|Hgt].
  - rewrite space_isr_number_short by lia.
    rewrite <- Hn. rewrite (Nat.div_small (n - 1) 5) by lia. lia.
  - rewrite space_isr_number_long by lia.
    assert (Hd : length (drop_last_chars 5 s) = n - 5)
      by (unfold drop_last_chars; rewrite length_firstn; lia).
    assert (Hl : length (last_chars 5 s) = 5)
      by (unfold last_chars; rewrite length_skipn; lia).
    rewrite !length_app, Hl.
    rewrite (IH (n - 5)) with (s := drop_last_chars 5 s) by (lia || auto).
    cbn [length list_ascii_of_string].
    replace (n - 1) with (n - 5 - 1 + 1 * 5) by lia.
    rewrite Nat.div_add by lia. lia.
Qed.

(** X2.  The text [_space_isr_number] gives has one space for every 5
    characters that come before the last block, and
    [space_qrr_reference] one space for every block: a reference of 27
    characters is displayed on 32, respectively 33, characters. *)
Theorem grouping_length (s : str) :
  length (_space_isr_number s) = length s + (length s - 1) / 5
  /\ length (space_qrr_reference s) = length s + (length s + 4) / 5
  /\ (length s = 27 ->
      length (_space_isr_number s) = 32 /\ length (space_qrr_reference s) = 33).
Proof.
  assert (Hq : length (space_qrr_reference s) = length s + (length s + 4) / 5).
  { destruct s as [|c t] eqn:E; [reflexivity|]. rewrite <- E.
    rewrite space_qrr_reference_trailing_space by (subst s; discriminate).
    rewrite length_app, length_space_isr_number.
    cbn [length list_ascii_of_string].
    assert (Hpos : 1 <= length s) by (subst s; cbn [length]; lia).
    replace (length s + 4) with (length s - 1 + 1 * 5) by lia.
    rewrite Nat.div_add by lia. lia. }
  split; [apply length_space_isr_number|]. split; [exact Hq|].
  intros H27. rewrite Hq, length_space_isr_number, H27. split; reflexivity.
Qed.

(** X3.  On a text that is not empty [space_qrr_reference] gives what
    [_space_isr_number] gives and one more space at the end. *)
Theorem space_qrr_reference_spec (qrr_ref : str) :
  qrr_ref <> [] ->
  space_qrr_reference qrr_ref = _space_isr_number qrr_ref ++ " ".
Proof. apply space_qrr_reference_trailing_space. Qed.

(** ** The validator on the references the module builds *)

Lemma remove_spaces_grouped (s : str) :
  ~ In " "%char s ->
  remove_char " " (_space_isr_number s) = s
  /\ remove_char " " (space_qrr_reference s) = s.
Proof.
  intros Hs. split.
  - unfold _space_isr_number. rewrite space_isr_loop_remove.
    cbn [remove_char filter]. rewrite app_nil_r.
    apply remove_char_absent, Hs.
  - unfold space_qrr_reference. rewrite space_qrr_loop_remove.
    cbn [remove_char filter]. rewrite app_nil_r, Nat2Z.id, firstn_all.
    apply remove_char_absent, Hs.
Qed.

Lemma digits_no_space (s : str) : all_digits s = true -> ~ In " "%char s.
Proof.
  intros Hd Hin. unfold all_digits in Hd.
  rewrite forallb_forall in Hd. apply Hd in Hin. discriminate Hin.
Qed.

Lemma digits_no_hyphen (s : str) : all_digits s = true -> ~ In "-"%char s.
Proof.
  intros Hd Hin. unfold all_digits in Hd.
  rewrite forallb_forall in Hd. apply Hd in Hin. discriminate Hin.
Qed.

Section ValidatorUses.

Context {float : Type}.
Implicit Types self inv record bill : account_move float.

(** What [_has_isr_ref] computes on a candidate that is not empty. *)
Lemma has_isr_ref_candidate self (c : str) :
  py_or (invoice_payment_ref self) (ref self) = Some c ->
  c <> [] ->
  _has_isr_ref self
  = if match_isr_ref (remove_char " " c)
    then checked <- mod10r (drop_last_chars 1 (remove_char " " c)) ;;
         Ok (str_eqb (remove_char " " c) checked)
    else Ok false.
Proof.
  intros Hc Hne. unfold _has_isr_ref. rewrite Hc.
  destruct c as [|x c]; [congruence|]. reflexivity.
Qed.

Lemma has_isr_ref_total self : exists b, _has_isr_ref self = Ok b.
Proof.
  unfold _has_isr_ref.
  destruct (negb (truthy (py_or (invoice_payment_ref self) (ref self)))).
  - eauto.
  - destruct (has_isr_ref_stripped
                (remove_char " " (text_of (py_or (invoice_payment_ref self) (ref self)))))
      as (b & Hb & _).
    eauto.
Qed.

(** A text of digits, or its display in blocks, is accepted when it is
    what [mod10r] gives on 1 to 26 digits. *)
Lemma has_isr_ref_of_mod10r self (d checked c : str) :
  all_digits d = true ->
  1 <= length d <= 26 ->
  mod10r d = Ok checked ->
  remove_char " " c = checked ->
  py_or (invoice_payment_ref self) (ref self) = Some c ->
  _has_isr_ref self = Ok true.
Proof.
  intros Hd Hlen Hr Hsp Hc.
  destruct (mod10r_ok _ Hr) as (_ & Hall & Hl & Hdrop).
  assert (Hne : c <> []).
  { intros ->. cbn in Hsp. subst checked. cbn [length] in Hl. lia. }
  rewrite (@has_isr_ref_candidate self c Hc Hne), Hsp.
  destruct (has_isr_ref_stripped checked) as (b & Hb & Hiff).
  rewrite Hb. f_equal. apply Hiff. rewrite Hdrop.
  split; [exact Hall | split; [lia | exact Hr]].
Qed.

(** X4.  [_has_isr_ref] does not see the grouping: an invoice whose
    candidate is the display in blocks of a text without spaces, by
    either routine, gets the answer of an invoice whose candidate is the
    text itself. *)
Theorem has_isr_ref_grouped self bill (s : str) :
  s <> [] ->
  ~ In " "%char s ->
  py_or (invoice_payment_ref self) (ref self) = Some s ->
  py_or (invoice_payment_ref bill) (ref bill) = Some (_space_isr_number s)
  \/ py_or (invoice_payment_ref bill) (ref bill) = Some (space_qrr_reference s) ->
  _has_isr_ref bill = _has_isr_ref self.
Proof.
  intros Hne Hs Hself Hbill.
  destruct (@remove_spaces_grouped s Hs) as [Hi Hq].
  rewrite (@has_isr_ref_candidate self s Hself Hne).
  rewrite (@remove_char_absent _ _ Hs).
  destruct Hbill as [Hb|Hb].
  - rewrite (@has_isr_ref_candidate bill _ Hb).
    + rewrite Hi. reflexivity.
    + intros E. rewrite E in Hi. cbn in Hi. congruence.
  - rewrite (@has_isr_ref_candidate bill _ Hb).
    + rewrite Hq. reflexivity.
    + intros E. rewrite E in Hq. cbn in Hq. congruence.
Qed.

(** X5.  The reference [_compute_l10n_ch_isr_number] stores, when the
    customer number has at most 26 characters, is a reference
    [_has_isr_ref] accepts on the bill that is paid with it, as it is
    stored or displayed in blocks by either routine. *)
Theorem computed_reference_accepted record record' bill (number : str) :
  (has_qriban record || truthy (l10n_ch_isr_subscription record))
  && truthy (name record) = true ->
  length (_get_isrb_id_number record) <= 26 ->
  _compute_l10n_ch_isr_number record = Ok record' ->
  l10n_ch_isr_number record' = Some number ->
  py_or (invoice_payment_ref bill) (ref bill) = Some number
  \/ py_or (invoice_payment_ref bill) (ref bill) = Some (_space_isr_number number)
  \/ py_or (invoice_payment_ref bill) (ref bill) = Some (space_qrr_reference number) ->
  _has_isr_ref bill = Ok true.
Proof.
  intros Hcond Hlen Hcomp Hnum Hbill.
  unfold _compute_l10n_ch_isr_number in Hcomp. rewrite Hcond in Hcomp.
  destruct (mod10r (isr_number_body (_get_isrb_id_number record)
                      (text_of (name record)))) as [n|e] eqn:Hr;
    cbn [bind] in Hcomp; [|discriminate Hcomp].
  injection Hcomp as <-. cbn in Hnum. injection Hnum as ->.
  assert (Hl : length (isr_number_body (_get_isrb_id_number record)
                         (text_of (name record))) = 26).
  { apply length_isr_number_body. rewrite length_isr_id_part.
    destruct (_get_isrb_id_number record); cbn [length] in *; lia. }
  destruct (mod10r_ok _ Hr) as (Hbody & Hall & _ & _).
  pose proof (@digits_no_space _ Hall) as Hns.
  destruct (@remove_spaces_grouped _ Hns) as [Hi Hq].
  destruct Hbill as [Hb|[Hb|Hb]];
    eapply (@has_isr_ref_of_mod10r bill _ _ _ Hbody); try exact Hr; try exact Hb;
    try lia; auto.
  apply remove_char_absent, Hns.
Qed.

End ValidatorUses.

Lemma has_isr_ref_grouped_witness :
  _has_isr_ref bill_paying_isrb_spaced = _has_isr_ref bill_paying_isrb.
Proof.
  apply (has_isr_ref_grouped bill_paying_isrb bill_paying_isrb_spaced
           (s := "150001000000000000202100013")).
  - discriminate.
  - apply digits_no_space. reflexivity.
  - reflexivity.
  - left. reflexivity.
Defined.

Lemma computed_reference_accepted_witness :
  _has_isr_ref bill_paying_isrb_spaced = Ok true.
Proof.
  apply (computed_reference_accepted isrb_invoice (record' := isrb_invoice_numbered)
           bill_paying_isrb_spaced (number := "150001000000000000202100013")).
  - reflexivity.
  - vm_compute. lia.
  - reflexivity.
  - reflexivity.
  - right. left. reflexivity.
Defined.

(** ** The subscription and its two forms *)

Lemma zeros_app (a b : nat) : zeros a ++ zeros b = zeros (a + b).
Proof. unfold zeros. symmetry. apply repeat_app. Qed.

Lemma strip_leading_zeros_split (m : str) :
  m = zeros (length m - length (strip_leading_zeros m)) ++ strip_leading_zeros m
  /\ length (strip_leading_zeros m) <= length m.
Proof.
  induction m as [|c m [IH Hle]]; cbn [strip_leading_zeros length].
  - split; [reflexivity | lia].
  - destruct (char_eqb c "0") eqn:E.
    + apply Ascii.eqb_eq in E. subst c. split; [|lia].
      replace (S (length m) - length (strip_leading_zeros m))
        with (S (length m - length (strip_leading_zeros m))) by lia.
      cbn [zeros repeat app]. f_equal. exact IH.
    + cbn [length]. split; [|lia].
      replace (S (length m) - S (length m)) with 0 by lia. reflexivity.
Qed.

Lemma strip_leading_zeros_idem (m : str) :
  strip_leading_zeros (strip_leading_zeros m) = strip_leading_zeros m.
Proof.
  induction m as [|c m IH]; cbn [strip_leading_zeros]; [reflexivity|].
  destruct (char_eqb c "0") eqn:E; [exact IH|].
  cbn [strip_leading_zeros]. rewrite E. reflexivity.
Qed.

Lemma strip_leading_zeros_incl (m : str) (c : ascii) :
  In c (strip_leading_zeros m) -> In c m.
Proof.
  intros H. destruct (strip_leading_zeros_split m) as [E _].
  rewrite E. apply in_or_app. right. exact H.
Qed.

Lemma rjust0_strip (m : str) :
  length m <= 6 -> rjust0 6 (strip_leading_zeros m) = rjust0 6 m.
Proof.
  intros Hm. destruct (strip_leading_zeros_split m) as [E Hle].
  assert (H0 : forall w, length w <= 6 -> rjust0 6 w = zeros (6 - length w) ++ w).
  { intros w Hw. unfold rjust0.
    destruct (Nat.leb_spec 6 (length w)); [|reflexivity].
    replace (6 - length w) with 0 by lia. reflexivity. }
  rewrite (H0 _ Hm), H0 by lia.
  transitivity (zeros (6 - length m)
                ++ zeros (length m - length (strip_leading_zeros m))
                ++ strip_leading_zeros m).
  - rewrite app_assoc, zeros_app. do 2 f_equal. lia.
  - rewrite <- E. reflexivity.
Qed.

(** The three parts the formatters cut a subscription into. *)
Lemma subscription_parts (cc m t : str) :
  length cc = 2 -> length t = 1 ->
  firstn 2 (cc ++ m ++ t) = cc
  /\ slice 2 (length (cc ++ m ++ t) - 1) (cc ++ m ++ t) = m
  /\ last_chars 1 (cc ++ m ++ t) = t.
Proof.
  intros Hc Ht. repeat split.
  - rewrite <- Hc. rewrite firstn_app, Nat.sub_diag, firstn_all.
    cbn [firstn]. apply app_nil_r.
  - unfold slice. rewrite !length_app, Hc, Ht.
    replace (2 + (length m + 1) - 1) with (length cc + length m) by lia.
    rewrite firstn_app_2, firstn_app, Nat.sub_diag, firstn_all.
    cbn [firstn]. rewrite app_nil_r.
    rewrite <- Hc, skipn_app, Nat.sub_diag, skipn_all. reflexivity.
  - unfold last_chars. rewrite !length_app, Ht.
    replace (length cc + (length m + 1) - 1) with (length (cc ++ m)) 
      by (rewrite length_app; lia).
    rewrite app_assoc, skipn_app, Nat.sub_diag, skipn_all. reflexivity.
Qed.

Lemma subscription_cut (raw : str) :
  3 <= length raw ->
  raw = firstn 2 raw ++ slice 2 (length raw - 1) raw ++ last_chars 1 raw
  /\ length (firstn 2 raw) = 2
  /\ length (slice 2 (length raw - 1) raw) = length raw - 3
  /\ length (last_chars 1 raw) = 1.
Proof.
  intros Hlen. unfold slice, last_chars. repeat split.
  - rewrite <- (firstn_skipn (length raw - 1) raw) at 1.
    rewrite <- (firstn_skipn 2 (firstn (length raw - 1) raw)) at 1.
    rewrite firstn_firstn, Nat.min_l by lia.
    rewrite <- app_assoc. reflexivity.
  - rewrite length_firstn. lia.
  - rewrite length_skipn, length_firstn. lia.
  - rewrite length_skipn. lia.
Qed.

Lemma format_isr_subscription_parts (cc m t : str) :
  length cc = 2 -> length t = 1 ->
  _format_isr_subscription (cc ++ m ++ t)
  = Ok (cc ++ "-" ++ strip_leading_zeros m ++ "-" ++ t)
  /\ _format_isr_subscription_scanline (cc ++ m ++ t) = cc ++ rjust0 6 m ++ t.
Proof.
  intros Hc Ht. destruct (subscription_parts cc m t Hc Ht) as (H1 & H2 & H3).
  unfold _format_isr_subscription, _format_isr_subscription_scanline, last_char.
  rewrite H1, H2, H3.
  destruct (cc ++ m ++ t) eqn:E.
  - apply (f_equal (@length ascii)) in E. rewrite !length_app in E.
    cbn [length] in E. lia.
  - split; reflexivity.
Qed.

(** X6.  The scanline of a subscription of [n] characters has
    [min 2 n + max 6 (n - 3) + min 1 n] characters: never fewer than 6,
    9 from 2 to 9 characters, and [n] beyond, where nothing is cut. *)
Theorem scanline_length_any (raw : str) :
  length (_format_isr_subscription_scanline raw)
  = Nat.min 2 (length raw) + Nat.max 6 (length raw - 3) + Nat.min 1 (length raw)
  /\ 6 <= length (_format_isr_subscription_scanline raw)
  /\ (2 <= length raw <= 9 -> length (_format_isr_subscription_scanline raw) = 9)
  /\ (9 <= length raw ->
      length (_format_isr_subscription_scanline raw) = length raw).
Proof.
  assert (H : length (_format_isr_subscription_scanline raw)
              = Nat.min 2 (length raw) + Nat.max 6 (length raw - 3)
                + Nat.min 1 (length raw)).
  { unfold _format_isr_subscription_scanline, last_chars, slice.
    rewrite !length_app, length_rjust0, !length_skipn, !length_firstn. lia. }
  rewrite H. repeat split; lia.
Qed.

(** X7.  The display form of a subscription of at least 3 characters,
    typed in again as a subscription, gives the same display form, and
    the same scanline when the subscription has at most 9 characters:
    01-162-8 and 010001628 are two ways to enter one subscription. *)
Theorem subscription_display_round_trip (raw : str) :
  3 <= length raw ->
  ~ In "-"%char raw ->
  exists display,
    _format_isr_subscription raw = Ok display
    /\ _format_isr_subscription (remove_char "-" display) = Ok display
    /\ (length raw <= 9 ->
        _format_isr_subscription_scanline (remove_char "-" display)
        = _format_isr_subscription_scanline raw).
Proof.
  intros Hlen Hraw.
  destruct (subscription_cut raw Hlen) as (Hcut & Hc & Hm & Ht).
  set (cc := firstn 2 raw) in *.
  set (m := slice 2 (length raw - 1) raw) in *.
  set (t := last_chars 1 raw) in *.
  assert (Hin : forall c, In c cc \/ In c m \/ In c t -> In c raw).
  { intros c H. rewrite Hcut. rewrite !in_app_iff. exact H. }
  assert (Hrm : remove_char "-"
                  (cc ++ "-" ++ strip_leading_zeros m ++ "-" ++ t)
                = cc ++ strip_leading_zeros m ++ t).
  { rewrite !remove_char_app.
    rewrite (@remove_char_absent "-" cc) by (intros H; apply Hraw, Hin; auto).
    rewrite (@remove_char_absent "-" t) by (intros H; apply Hraw, Hin; auto).
    rewrite (@remove_char_absent "-" (strip_leading_zeros m)).
    - reflexivity.
    - intros H. apply Hraw, Hin. right. left.
      apply strip_leading_zeros_incl, H. }
  destruct (format_isr_subscription_parts cc m t Hc Ht) as [Hf Hs].
  destruct (format_isr_subscription_parts cc (strip_leading_zeros m) t Hc Ht)
    as [Hf' Hs'].
  exists (cc ++ "-" ++ strip_leading_zeros m ++ "-" ++ t).
  rewrite Hrm, Hcut, Hf, Hf', Hs, Hs', strip_leading_zeros_idem.
  repeat split. intros H9. rewrite !length_app in H9.
  rewrite rjust0_strip by lia. reflexivity.
Qed.

Lemma subscription_display_round_trip_witness :
  exists display,
    _format_isr_subscription "010001628" = Ok display
    /\ _format_isr_subscription (remove_char "-" display) = Ok display
    /\ (length ("010001628" : str) <= 9 ->
        _format_isr_subscription_scanline (remove_char "-" display)
        = _format_isr_subscription_scanline "010001628").
Proof.
  apply (subscription_display_round_trip "010001628").
  - vm_compute. lia.
  - apply digits_no_hyphen. reflexivity.
Defined.

Lemma in_firstn_str (n : nat) (s : str) (c : ascii) :
  In c (firstn n s) -> In c s.
Proof.
  intros H. rewrite <- (firstn_skipn n s). apply in_or_app. left. exact H.
Qed.

Lemma in_skipn_str (n : nat) (s : str) (c : ascii) :
  In c (skipn n s) -> In c s.
Proof.
  intros H. rewrite <- (firstn_skipn n s). apply in_or_app. right. exact H.
Qed.

(** A character of the scanline comes from the subscription or is a
    zero of the padding. *)
Lemma in_scanline (s : str) (c : ascii) :
  In c (_format_isr_subscription_scanline s) -> In c s \/ c = "0"%char.
Proof.
  unfold _format_isr_subscription_scanline, last_chars, slice, rjust0.
  rewrite !in_app_iff. intros [H|[H|H]].
  - left. eapply in_firstn_str, H.
  - destruct (6 <=? _).
    + left. eapply in_firstn_str, in_skipn_str, H.
    + apply in_app_iff in H as [H|H].
      * right. unfold zeros in H. eapply repeat_spec, H.
      * left. eapply in_firstn_str, in_skipn_str, H.
  - left. eapply in_skipn_str, H.
Qed.

Lemma format_isr_subscription_raise (s : str) (e : exn) :
  _format_isr_subscription s = Raise e <-> s = [] /\ e = IndexError.
Proof.
  unfold _format_isr_subscription. destruct s as [|c s]; cbn [last_char bind].
  - split.
    + intros H. injection H as <-. auto.
    + intros [_ ->]. reflexivity.
  - split; [discriminate|]. intros [H _]. discriminate H.
Qed.

Lemma truthy_app_hyphen (x y : str) : truthy (Some (x ++ "-" ++ y)) = true.
Proof. destruct x; reflexivity. Qed.

Section SubscriptionField.

Context {float : Type}.
Implicit Types record : account_move float.

(** [_compute_l10n_ch_isr_subscription] in terms of the subscription it
    picks. *)
Lemma subscription_compute_cases record :
  _compute_l10n_ch_isr_subscription record
  = if truthy (isr_subscription_of record)
    then
      formatted <- _format_isr_subscription
                     (remove_char "-" (text_of (isr_subscription_of record))) ;;
      Ok (set_l10n_ch_isr_subscription_formatted (Some formatted)
            (set_l10n_ch_isr_subscription
               (Some (_format_isr_subscription_scanline
                        (remove_char "-" (text_of (isr_subscription_of record)))))
               (set_l10n_ch_isr_subscription_formatted None
                  (set_l10n_ch_isr_subscription None record))))
    else Ok (set_l10n_ch_isr_subscription_formatted None
               (set_l10n_ch_isr_subscription None record)).
Proof.
  unfold _compute_l10n_ch_isr_subscription, isr_subscription_of.
  cbn [invoice_partner_bank_id currency_name
       set_l10n_ch_isr_subscription set_l10n_ch_isr_subscription_formatted].
  destruct (invoice_partner_bank_id record) as [bank|]; [|reflexivity].
  destruct (field_eqb (currency_name record) "EUR").
  - destruct (truthy (l10n_ch_isr_subscription_eur bank)); reflexivity.
  - destruct (field_eqb (currency_name record) "CHF"); [|reflexivity].
    destruct (truthy (l10n_ch_isr_subscription_chf bank)); reflexivity.
Qed.

(** X8.  [_compute_l10n_ch_isr_subscription] raises exactly when the
    subscription of the bank account for the currency of the invoice is
    not empty and holds hyphens only, and what it raises then is the
    [IndexError] of the last character of an empty text. *)
Theorem subscription_compute_raises record (e : exn) :
  _compute_l10n_ch_isr_subscription record = Raise e
  <-> e = IndexError
      /\ truthy (isr_subscription_of record) = true
      /\ remove_char "-" (text_of (isr_subscription_of record)) = [].
Proof.
  rewrite subscription_compute_cases.
  destruct (truthy (isr_subscription_of record)).
  - destruct (_format_isr_subscription
                (remove_char "-" (text_of (isr_subscription_of record))))
      as [f|e'] eqn:Hf; cbn [bind].
    + split; [discriminate|]. intros (-> & _ & Hempty).
      rewrite Hempty in Hf. discriminate Hf.
    + apply format_isr_subscription_raise in Hf as [Hempty ->].
      split.
      * intros H. injection H as <-. auto.
      * intros (-> & _). reflexivity.
  - split; [discriminate|]. intros (_ & H & _). discriminate H.
Qed.

(** X9.  When [_compute_l10n_ch_isr_subscription] raises nothing, the
    scanline and the display form are set together, exactly when the
    bank account has a subscription for the currency of the invoice, and
    they are [False] together otherwise; the scanline holds no hyphen. *)
Theorem subscription_fields_together record record' :
  _compute_l10n_ch_isr_subscription record = Ok record' ->
  truthy (l10n_ch_isr_subscription record') = truthy (isr_subscription_of record)
  /\ truthy (l10n_ch_isr_subscription_formatted record')
     = truthy (isr_subscription_of record)
  /\ (truthy (isr_subscription_of record) = false ->
      l10n_ch_isr_subscription record' = None
      /\ l10n_ch_isr_subscription_formatted record' = None)
  /\ ~ In "-"%char (text_of (l10n_ch_isr_subscription record')).
Proof.
  rewrite subscription_compute_cases.
  destruct (truthy (isr_subscription_of record)).
  - set (s := remove_char "-" (text_of (isr_subscription_of record))).
    destruct (_format_isr_subscription s) as [f|e'] eqn:Hf; cbn [bind];
      [|discriminate].
    intros H. injection H as <-. fields. cbn [text_of].
    assert (Hscan : truthy (Some (_format_isr_subscription_scanline s)) = true).
    { destruct (_format_isr_subscription_scanline s) eqn:E; [|reflexivity].
      apply (f_equal (@length ascii)) in E.
      unfold _format_isr_subscription_scanline in E.
      rewrite !length_app, length_rjust0 in E. cbn [length] in E. lia. }
    assert (Hdisp : truthy (Some f) = true).
    { unfold _format_isr_subscription in Hf.
      destruct (last_char s); cbn [bind] in Hf; [|discriminate Hf].
      assert (Hx : forall x : str, Ok x = Ok f -> truthy (Some x) = truthy (Some f))
        by (intros x Hx; congruence).
      rewrite <- (Hx _ Hf). apply truthy_app_hyphen. }
    rewrite Hscan, Hdisp. repeat split; try discriminate.
    intros Hin. apply in_scanline in Hin as [Hin|Hin]; [|discriminate Hin].
    unfold s, remove_char in Hin. apply filter_In in Hin as [_ Hin].
    cbn in Hin. discriminate Hin.
  - intros H. injection H as <-. fields. cbn [truthy text_of].
    repeat split; auto.
Qed.

End SubscriptionField.

Lemma subscription_fields_together_witness :
  truthy (l10n_ch_isr_subscription isrb_invoice_ready)
  = truthy (isr_subscription_of isrb_invoice_numbered)
  /\ truthy (l10n_ch_isr_subscription_formatted isrb_invoice_ready)
     = truthy (isr_subscription_of isrb_invoice_numbered)
  /\ (truthy (isr_subscription_of isrb_invoice_numbered) = false ->
      l10n_ch_isr_subscription isrb_invoice_ready = None
      /\ l10n_ch_isr_subscription_formatted isrb_invoice_ready = None)
  /\ ~ In "-"%char (text_of (l10n_ch_isr_subscription isrb_invoice_ready)).
Proof.
  apply (subscription_fields_together isrb_invoice_numbered). reflexivity.
Defined.

(** ** The reference and its display *)

(** X10.  When the customer number and the digits of the invoice name
    fit in 26 characters, no digit is dropped: the body is the customer
    number, zeros, and all the digits of the name, 26 characters in all. *)
Theorem isr_number_body_padding (id_number name : str) :
  let id_part := isr_id_part id_number in
  let invoice_digits := keep_digits name in
  let total := length id_part + length invoice_digits in
  total <= 26 ->
  isr_number_body id_number name
  = id_part ++ zeros (26 - total) ++ invoice_digits
  /\ length (isr_number_body id_number name) = 26.
Proof.
  intros id_part invoice_digits total Htotal.
  assert (Hid : length id_part <= 26) by (subst total; lia).
  split; [|apply length_isr_number_body; exact Hid].
  rewrite isr_number_body_eq. fold id_part invoice_digits total.
  replace (total - 26) with 0 by lia. cbn [skipn].
  rewrite zfill_digits by apply all_digits_keep_digits.
  do 3 f_equal. subst total. fold invoice_digits. lia.
Qed.

Lemma isr_number_body_padding_witness :
  isr_number_body "150001" "INV/2021/0001"
  = isr_id_part "150001" ++ zeros 12 ++ keep_digits "INV/2021/0001"
  /\ length (isr_number_body "150001" "INV/2021/0001") = 26.
Proof.
  apply (isr_number_body_padding "150001" "INV/2021/0001").
  vm_compute. lia.
Defined.

Section ReferenceDisplay.

Context {float : Type}.
Implicit Types record : account_move float.

(** What [_compute_l10n_ch_isr_number] stores when it raises nothing. *)
Lemma isr_number_stored record record' :
  (has_qriban record || truthy (l10n_ch_isr_subscription record))
  && truthy (name record) = true ->
  length (_get_isrb_id_number record) <= 26 ->
  _compute_l10n_ch_isr_number record = Ok record' ->
  exists number,
    record' = set_l10n_ch_isr_number (Some number) record
    /\ length number = 27 /\ all_digits number = true.
Proof.
  intros Hcond Hlen Hcomp.
  unfold _compute_l10n_ch_isr_number in Hcomp. rewrite Hcond in Hcomp.
  destruct (mod10r (isr_number_body (_get_isrb_id_number record)
                      (text_of (name record)))) as [n|e] eqn:Hr;
    cbn [bind] in Hcomp; [|discriminate Hcomp].
  injection Hcomp as <-. exists n. split; [reflexivity|].
  destruct (mod10r_ok _ Hr) as (_ & Hall & Hn & _).
  split; [|exact Hall]. rewrite Hn, length_isr_number_body; [reflexivity|].
  rewrite length_isr_id_part.
  destruct (_get_isrb_id_number record); cbn [length] in *; lia.
Qed.

(** X11.  On an ISR-B invoice (a bank account with a customer number of
    at most 26 characters) whose reference is computed, the spaced
    reference is the reference in blocks: 32 characters, which give the
    reference back once the spaces are removed. *)
Theorem isr_number_spaced_blocks record record' (bank : res_partner_bank) :
  invoice_partner_bank_id record = Some bank ->
  truthy (l10n_ch_postal bank) = true ->
  length (text_of (l10n_ch_postal bank)) <= 26 ->
  (has_qriban record || truthy (l10n_ch_isr_subscription record))
  && truthy (name record) = true ->
  _compute_l10n_ch_isr_number record = Ok record' ->
  exists number spaced,
    l10n_ch_isr_number record' = Some number
    /\ l10n_ch_isr_number_spaced (_compute_l10n_ch_isr_number_spaced record')
       = Some spaced
    /\ spaced = _space_isr_number number
    /\ length spaced = 32
    /\ remove_char " " spaced = number.
Proof.
  intros Hbank Hpostal Hlen Hcond Hcomp.
  assert (Hid : _get_isrb_id_number record = text_of (l10n_ch_postal bank)).
  { unfold _get_isrb_id_number, py_or. rewrite Hbank, Hpostal. reflexivity. }
  destruct (@isr_number_stored record record' Hcond) as (number & -> & Hn & Hd);
    [rewrite Hid; exact Hlen | exact Hcomp |].
  exists number, (_space_isr_number number).
  apply andb_true_iff in Hcond as [_ Hname].
  unfold _compute_l10n_ch_isr_number_spaced. fields.
  rewrite Hbank, Hname, Hpostal. fields. cbn [andb text_of].
  repeat split.
  - rewrite length_space_isr_number, Hn. reflexivity.
  - apply (@remove_spaces_grouped number), digits_no_space, Hd.
Qed.

(** X12.  On an invoice without a customer number (no bank account, or
    one whose [l10n_ch_postal] is empty) whose reference is computed, the
    reference is stored, 27 characters long, and the spaced reference is
    [False] all the same. *)
Theorem isr_number_spaced_without_customer_number record :
  (forall bank, invoice_partner_bank_id record = Some bank ->
                truthy (l10n_ch_postal bank) = false) ->
  (has_qriban record || truthy (l10n_ch_isr_subscription record))
  && truthy (name record) = true ->
  exists number,
    _compute_l10n_ch_isr_number record
    = Ok (set_l10n_ch_isr_number (Some number) record)
    /\ length number = 27
    /\ l10n_ch_isr_number_spaced
         (_compute_l10n_ch_isr_number_spaced
            (set_l10n_ch_isr_number (Some number) record))
       = None.
Proof.
  intros Hpostal Hcond.
  assert (Hid : _get_isrb_id_number record = []).
  { unfold _get_isrb_id_number, py_or.
    destruct (invoice_partner_bank_id record) as [bank|]; [|reflexivity].
    rewrite (Hpostal bank eq_refl). reflexivity. }
  unfold _compute_l10n_ch_isr_number. rewrite Hcond, Hid.
  destruct (mod10r_digits (isr_number_body [] (text_of (name record))))
    as (k & Hk & Hr).
  { apply all_digits_isr_number_body. reflexivity. }
  rewrite Hr. cbn [bind]. eexists. split; [reflexivity|]. split.
  - rewrite length_app, length_isr_number_body; [reflexivity|].
    cbn. lia.
  - unfold _compute_l10n_ch_isr_number_spaced. fields.
    destruct (invoice_partner_bank_id record) as [bank|]; [|reflexivity].
    rewrite (Hpostal bank eq_refl), andb_false_r. reflexivity.
Qed.

End ReferenceDisplay.

Lemma isr_number_spaced_blocks_witness :
  exists number spaced,
    l10n_ch_isr_number isrb_invoice_numbered = Some number
    /\ l10n_ch_isr_number_spaced
         (_compute_l10n_ch_isr_number_spaced isrb_invoice_numbered)
       = Some spaced
    /\ spaced = _space_isr_number number
    /\ length spaced = 32
    /\ remove_char " " spaced = number.
Proof.
  apply (isr_number_spaced_blocks isrb_invoice
           (record' := isrb_invoice_numbered)
           (bank := bank_with (Some ("150001" : str)) (Some ("01-162-8" : str)))).
  - reflexivity.
  - reflexivity.
  - vm_compute. lia.
  - reflexivity.
  - reflexivity.
Defined.

Lemma isr_number_spaced_without_customer_number_witness :
  exists number,
    _compute_l10n_ch_isr_number isr_invoice
    = Ok (set_l10n_ch_isr_number (Some number) isr_invoice)
    /\ length number = 27
    /\ l10n_ch_isr_number_spaced
         (_compute_l10n_ch_isr_number_spaced
            (set_l10n_ch_isr_number (Some number) isr_invoice))
       = None.
Proof.
  apply (isr_number_spaced_without_customer_number isr_invoice).
  - intros bank H. injection H as <-. reflexivity.
  - reflexivity.
Defined.

(** ** The amount and the width of the optical line *)

Lemma mod10r_raise (s : str) (e : exn) : mod10r s = Raise e -> e = InvalidInput.
Proof.
  unfold mod10r. intros H.
  assert (Hc : mod10r_carry 0 s = Raise e)
    by (destruct (mod10r_carry 0 s); cbn [bind] in H; [discriminate H | congruence]).
  clear H. revert Hc. generalize 0.
  induction s as [|c s IH]; cbn [mod10r_carry]; intros k H.
  - discriminate H.
  - destruct (is_digit c); [eapply IH, H | congruence].
Qed.

Lemma field_eqb_truthy (v : char_field) (s : str) :
  field_eqb v s = true -> s <> [] -> truthy v = true.
Proof.
  unfold field_eqb. destruct v as [t|]; [|discriminate].
  intros H Hs. apply str_eqb_eq in H. subst t.
  destruct s; [congruence | reflexivity].
Qed.

Lemma currency_in_eur_chf_truthy (v : char_field) :
  currency_in_eur_chf v = true -> truthy v = true.
Proof.
  unfold currency_in_eur_chf. intros H. apply orb_true_iff in H as [H|H];
    eapply field_eqb_truthy; try exact H; discriminate.
Qed.

Section Amount.

Context {float : Type}.
Variable float_split_str : float -> nat -> str * str.
Implicit Types record self : account_move float.

Lemma subscription_of_currency record :
  truthy (isr_subscription_of record) = true ->
  currency_in_eur_chf (currency_name record) = true.
Proof.
  unfold isr_subscription_of, currency_in_eur_chf.
  destruct (invoice_partner_bank_id record); [|discriminate].
  destruct (field_eqb (currency_name record) "EUR"); [reflexivity|].
  destruct (field_eqb (currency_name record) "CHF"); [reflexivity|discriminate].
Qed.

(** X13.  [_get_l10n_ch_isr_optical_amount] raises a [TypeError]
    exactly on an invoice whose currency is neither CHF nor EUR, whatever
    its amount. *)
Theorem optical_amount_type_error self :
  _get_l10n_ch_isr_optical_amount float_split_str self = Raise TypeError
  <-> currency_in_eur_chf (currency_name self) = false.
Proof.
  unfold _get_l10n_ch_isr_optical_amount, currency_in_eur_chf.
  destruct (float_split_str (amount_residual self) 2) as [units cents].
  destruct (field_eqb (currency_name self) "CHF").
  - rewrite orb_true_r. split; [|discriminate].
    intros H. apply mod10r_raise in H. discriminate H.
  - rewrite orb_false_r.
    destruct (field_eqb (currency_name self) "EUR").
    + split; [|discriminate].
      intros H. apply mod10r_raise in H. discriminate H.
    + split; reflexivity.
Qed.

(** X14.  In CHF or EUR, on an amount whose units and cents are [n]
    digits, the optical amount is the code of the currency (01 for CHF,
    03 for EUR), the digits with zeros on their left up to 10, and a
    check digit: 13 characters up to 10 digits, and [n + 3] beyond,
    where nothing is cut. *)
Theorem optical_amount_width self (units cents : str) :
  currency_in_eur_chf (currency_name self) = true ->
  float_split_str (amount_residual self) 2 = (units, cents) ->
  all_digits (units ++ cents) = true ->
  exists amount k,
    _get_l10n_ch_isr_optical_amount float_split_str self = Ok amount
    /\ k < 10
    /\ amount
       = (if field_eqb (currency_name self) "CHF" then "01" else "03")
         ++ zeros (10 - length (units ++ cents)) ++ (units ++ cents)
         ++ [digit_char k]
    /\ length amount = Nat.max 13 (length (units ++ cents) + 3).
Proof.
  unfold currency_in_eur_chf, _get_l10n_ch_isr_optical_amount.
  intros Hcur Hsplit Hd. rewrite Hsplit.
  assert (Hz : zfill 10 (units ++ cents)
               = zeros (10 - length (units ++ cents)) ++ (units ++ cents)).
  { rewrite zfill_digits by exact Hd. f_equal. f_equal. lia. }
  assert (Hzd : all_digits (zfill 10 (units ++ cents)) = true)
    by (apply all_digits_zfill, Hd).
  pose proof (length_zfill 10 (units ++ cents)) as Hl.
  destruct (field_eqb (currency_name self) "CHF") eqn:Hchf.
  - destruct (mod10r_digits ("01" ++ zfill 10 (units ++ cents))) as (k & Hk & Hr).
    { rewrite all_digits_app, Hzd. reflexivity. }
    rewrite Hr. eexists. exists k. split; [reflexivity|]. split; [exact Hk|].
    split.
    + rewrite Hz, <- !app_assoc. reflexivity.
    + rewrite !length_app in *. cbn [length list_ascii_of_string]. lia.
  - rewrite orb_false_r in Hcur. rewrite Hcur.
    destruct (mod10r_digits ("03" ++ zfill 10 (units ++ cents))) as (k & Hk & Hr).
    { rewrite all_digits_app, Hzd. reflexivity. }
    rewrite Hr. eexists. exists k. split; [reflexivity|]. split; [exact Hk|].
    split.
    + rewrite Hz, <- !app_assoc. reflexivity.
    + rewrite !length_app in *. cbn [length list_ascii_of_string]. lia.
Qed.

(** The reference is stored when the customer number is made of digits. *)
Lemma isr_number_computed record :
  (has_qriban record || truthy (l10n_ch_isr_subscription record))
  && truthy (name record) = true ->
  all_digits (_get_isrb_id_number record) = true ->
  length (_get_isrb_id_number record) <= 26 ->
  exists number,
    _compute_l10n_ch_isr_number record
    = Ok (set_l10n_ch_isr_number (Some number) record)
    /\ length number = 27.
Proof.
  intros Hcond Hd Hlen. unfold _compute_l10n_ch_isr_number. rewrite Hcond.
  destruct (mod10r_digits (isr_number_body (_get_isrb_id_number record)
                             (text_of (name record)))) as (k & Hk & Hr).
  { apply all_digits_isr_number_body, Hd. }
  rewrite Hr. cbn [bind]. eexists. split; [reflexivity|].
  rewrite length_app, length_isr_number_body; [reflexivity|].
  rewrite length_isr_id_part.
  destruct (_get_isrb_id_number record); cbn [length] in *; lia.
Qed.

(** X15.  From the fields of the invoice to the optical line.  With a
    subscription of 3 to 9 characters for the currency of the invoice, a
    name, a customer number of at most 26 digits and an amount of at
    most 10 digits, the three compute methods in a row raise nothing and
    leave an optical line of exactly 53 characters. *)
Theorem optical_line_width record (units cents : str) :
  truthy (isr_subscription_of record) = true ->
  3 <= length (remove_char "-" (text_of (isr_subscription_of record))) <= 9 ->
  truthy (name record) = true ->
  all_digits (_get_isrb_id_number record) = true ->
  length (_get_isrb_id_number record) <= 26 ->
  float_split_str (amount_residual record) 2 = (units, cents) ->
  all_digits (units ++ cents) = true ->
  length (units ++ cents) <= 10 ->
  exists r1 r2 r3 line,
    _compute_l10n_ch_isr_subscription record = Ok r1
    /\ _compute_l10n_ch_isr_number r1 = Ok r2
    /\ _compute_l10n_ch_isr_optical_line float_split_str r2 = Ok r3
    /\ l10n_ch_isr_optical_line r3 = Some line
    /\ length line = 53.
Proof.
  intros Hsub Hlen Hname Hd Hid Hsplit Hamt Hn.
  set (s := remove_char "-" (text_of (isr_subscription_of record))) in *.
  destruct (_format_isr_subscription s) as [f|e] eqn:Hf.
  2:{ apply format_isr_subscription_raise in Hf as [Hs _].
      rewrite Hs in Hlen. cbn [length] in Hlen. lia. }
  set (r1 := set_l10n_ch_isr_subscription_formatted (Some f)
               (set_l10n_ch_isr_subscription
                  (Some (_format_isr_subscription_scanline s))
                  (set_l10n_ch_isr_subscription_formatted None
                     (set_l10n_ch_isr_subscription None record)))).
  assert (H1 : _compute_l10n_ch_isr_subscription record = Ok r1).
  { rewrite subscription_compute_cases, Hsub. fold s. rewrite Hf. reflexivity. }
  assert (Hscan : length (_format_isr_subscription_scanline s) = 9).
  { rewrite scanline_length by lia. lia. }
  assert (Hts : truthy (Some (_format_isr_subscription_scanline s)) = true).
  { destruct (_format_isr_subscription_scanline s); [discriminate Hscan|reflexivity]. }
  destruct (@isr_number_computed r1) as (number & H2 & Hnum).
  { change (l10n_ch_isr_subscription r1)
      with (Some (_format_isr_subscription_scanline s)).
    change (name r1) with (name record).
    rewrite Hts, Hname, orb_true_r. reflexivity. }
  { exact Hd. }
  { exact Hid. }
  set (r2 := set_l10n_ch_isr_number (Some number) r1) in *.
  pose proof (subscription_of_currency record Hsub) as Hcur.
  destruct (@optical_amount_ok _ float_split_str r2 units cents Hcur Hsplit Hamt)
    as (amount & Ha & _ & Hal).
  assert (Hp : truthy (l10n_ch_isr_number r2)
               && truthy (l10n_ch_isr_subscription r2)
               && truthy (currency_name r2) = true).
  { change (l10n_ch_isr_number r2) with (Some number).
    change (l10n_ch_isr_subscription r2)
      with (Some (_format_isr_subscription_scanline s)).
    change (currency_name r2) with (currency_name record).
    rewrite Hts, (currency_in_eur_chf_truthy _ Hcur).
    destruct number; [discriminate Hnum|reflexivity]. }
  pose proof (optical_line_assembled float_split_str r2 Hp Ha) as H3.
  eexists r1, r2, _, _. split; [exact H1|]. split; [exact H2|].
  split; [exact H3|]. split; [reflexivity|].
  change (text_of (l10n_ch_isr_number r2)) with number.
  change (text_of (l10n_ch_isr_subscription r2))
    with (_format_isr_subscription_scanline s).
  rewrite !length_app, Hal, Hnum, Hscan.
  cbn [length list_ascii_of_string]. lia.
Qed.

End Amount.

Lemma optical_amount_width_witness :
  exists amount k,
    _get_l10n_ch_isr_optical_amount split_given isrb_invoice = Ok amount
    /\ k < 10
    /\ amount
       = (if field_eqb (currency_name isrb_invoice) "CHF" then "01" else "03")
         ++ zeros (10 - length (("3949" : str) ++ "75")) ++ (("3949" : str) ++ "75")
         ++ [digit_char k]
    /\ length amount = Nat.max 13 (length (("3949" : str) ++ "75") + 3).
Proof.
  apply (optical_amount_width split_given isrb_invoice
           (units := ("3949" : str)) (cents := ("75" : str))); reflexivity.
Defined.

Lemma optical_line_width_witness :
  exists r1 r2 r3 line,
    _compute_l10n_ch_isr_subscription isrb_invoice = Ok r1
    /\ _compute_l10n_ch_isr_number r1 = Ok r2
    /\ _compute_l10n_ch_isr_optical_line split_given r2 = Ok r3
    /\ l10n_ch_isr_optical_line r3 = Some line
    /\ length line = 53.
Proof.
  apply (optical_line_width split_given isrb_invoice
           (units := ("3949" : str)) (cents := ("75" : str)));
    try reflexivity; vm_compute; lia.
Defined.

(** ** The print action and the bills to fix *)

Section Actions.

Context {float : Type}.
Variable company_country_code : account_move float -> char_field.
Variable _is_isr_issuer : option res_partner_bank -> bool.
Implicit Types self inv : account_move float.

(** X16.  [isr_print] returns the report exactly when the validity flag
    of the record is set, and it raises [NotImplementedError] exactly
    when the flag is not set although a bank account is there and
    [_compute_l10n_ch_isr_valid] would set it: a flag that lags behind
    the fields. *)
Theorem isr_print_outcomes self :
  (snd (isr_print self) = Report "l10n_ch.l10n_ch_isr_report"
   <-> l10n_ch_isr_valid self = true)
  /\ (snd (isr_print self) = Raised NotImplementedError
      <-> l10n_ch_isr_valid self = false
          /\ invoice_partner_bank_id self <> None
          /\ l10n_ch_isr_valid (_compute_l10n_ch_isr_valid self) = true).
Proof.
  unfold isr_print, _compute_l10n_ch_isr_valid.
  cbn [set_l10n_ch_isr_valid l10n_ch_isr_valid].
  destruct (l10n_ch_isr_valid self).
  - cbn [snd]. split.
    + split; reflexivity.
    + split; [discriminate|]. intros (H & _). discriminate H.
  - destruct (invoice_partner_bank_id self) as [bank|];
      destruct (truthy (l10n_ch_isr_subscription self));
      destruct (field_eqb (type self) "out_invoice");
      destruct (currency_in_eur_chf (currency_name self));
      destruct (truthy (name self));
      cbn [negb app andb snd];
      (split; [split; discriminate|]);
      (split; [try discriminate; intros _; repeat split; discriminate
              | try reflexivity; intros (_ & Hb & Hv);
                try discriminate Hv; exfalso; apply Hb; reflexivity]).
Qed.

(** X17.  [_compute_l10n_ch_isr_needs_fixing] raises nothing, and it
    marks exactly the vendor bills of a Swiss company whose bank account
    issues ISR and whose reference [_has_isr_ref] refuses. *)
Theorem needs_fixing_spec inv :
  exists b,
    _compute_l10n_ch_isr_needs_fixing company_country_code _is_isr_issuer inv
    = Ok b
    /\ (b = true <->
        field_eqb (type inv) "in_invoice" = true
        /\ field_eqb (company_country_code inv) "CH" = true
        /\ _is_isr_issuer (invoice_partner_bank_id inv) = true
        /\ _has_isr_ref inv = Ok false).
Proof.
  unfold _compute_l10n_ch_isr_needs_fixing.
  destruct (has_isr_ref_total inv) as (r & Hr). rewrite Hr. cbn [bind].
  destruct (field_eqb (type inv) "in_invoice");
    destruct (field_eqb (company_country_code inv) "CH");
    destruct (_is_isr_issuer (invoice_partner_bank_id inv));
    destruct r; cbn [andb negb]; eexists; (split; [reflexivity|]);
    split; try discriminate; try tauto;
    intros (H1 & H2 & H3 & H4); discriminate.
Qed.

(** X18.  A bill whose reference is what [mod10r] gives on 1 to 26
    digits, written with or without spaces, is never marked. *)
Theorem needs_fixing_checked_reference inv (d checked c : str) :
  all_digits d = true ->
  1 <= length d <= 26 ->
  mod10r d = Ok checked ->
  remove_char " " c = checked ->
  py_or (invoice_payment_ref inv) (ref inv) = Some c ->
  _compute_l10n_ch_isr_needs_fixing company_country_code _is_isr_issuer inv
  = Ok false.
Proof.
  intros Hd Hlen Hr Hsp Hc.
  unfold _compute_l10n_ch_isr_needs_fixing.
  rewrite (@has_isr_ref_of_mod10r _ inv d checked c Hd Hlen Hr Hsp Hc).
  cbn [bind negb].
  destruct (_ && _); [|reflexivity].
  destruct (_is_isr_issuer _); reflexivity.
Qed.

End Actions.

Lemma needs_fixing_checked_reference_witness :
  _compute_l10n_ch_isr_needs_fixing swiss_company every_bank_issues_isr vendor_bill
  = Ok false.
Proof.
  apply (needs_fixing_checked_reference swiss_company every_bank_issues_isr
           vendor_bill ("1237" : str) (checked := ("12371" : str))
           (c := ("12371" : str))).
  - reflexivity.
  - vm_compute. lia.
  - reflexivity.
  - reflexivity.
  - reflexivity.
Defined.

(** ** The display routines on the texts of the docstrings *)

Lemma space_isr_number_blocks_witness :
  _space_isr_number "12371" = ("12371" : str)
  /\ _space_isr_number "123456789"
     = _space_isr_number (drop_last_chars 5 "123456789") ++ " "
       ++ last_chars 5 "123456789".
Proof.
  split.
  - apply (proj1 (space_isr_number_blocks "12371")). vm_compute. lia.
  - apply (proj2 (space_isr_number_blocks "123456789")). vm_compute. lia.
Defined.

Lemma grouping_length_witness :
  length (_space_isr_number "210000000003139471430009017") = 32
  /\ length (space_qrr_reference "210000000003139471430009017") = 33.
Proof.
  apply (proj2 (proj2 (grouping_length "210000000003139471430009017"))).
  reflexivity.
Defined.

Lemma space_qrr_reference_spec_witness :
  space_qrr_reference "210000000003139471430009017"
  = _space_isr_number "210000000003139471430009017" ++ " ".
Proof.
  apply (space_qrr_reference_spec (qrr_ref := "210000000003139471430009017")).
  discriminate.
Defined.

Lemma scanline_length_any_witness :
  length (_format_isr_subscription_scanline "011628") = 9
  /\ length (_format_isr_subscription_scanline "0112345678")
     = length ("0112345678" : str).
Proof.
  split.
  - apply (proj1 (proj2 (proj2 (scanline_length_any "011628")))).
    vm_compute. lia.
  - apply (proj2 (proj2 (proj2 (scanline_length_any "0112345678")))).
    vm_compute. lia.
Defined.
